(** * QMS_app: record identifiers, submission forms and the admin view

    A shallow embedding of [QMS_app.py].  The script talks to two remote
    services (a spreadsheet per record type and a file store), reads the
    clock, and renders Streamlit output.  All of that is threaded through an
    explicit [World]; the only exception the script's own code can raise is
    the [ValueError] of [int(...)].

    Modelling conventions.
    - A Python [str] is a [string]; each [ascii] is read as the code point of
      the same number (code points below 256).
    - The remote services answer every call: transport, quota and
      authentication failures of the clients are outside the model.
    - The interpreter's limit on the number of digits in a conversion
      between [int] and [str] is at its default, 4300, which the script
      never changes: [int()] of a longer run of digits and the formatting
      of a longer number raise [ValueError].
    - Widgets are inputs of a script run ([Inputs]); what the script renders
      is recorded in the [trace] of the world, with message texts kept
      symbolic.  The page title and the tab bar are not recorded, and the
      set-up at the top of the script (credentials, opening the three
      spreadsheets, building the drive client) is taken as done.
    - The three form blocks of the script differ only in their fields, so
      they are one definition ([form_tab], [submit]) over the tables
      [prefix_of], [required_fields], [row_fields], [uploaded_file_of] and
      [submit_button]. *)

From Stdlib Require Import Bool Arith ZArith NArith Lia List.
From Stdlib Require Import Ascii String DecimalString DecimalN DecimalNat.
Import ListNotations.

Open Scope string_scope.
Open Scope list_scope.

Infix "+:+" := String.append (at level 60, right associativity).

(** ** Python built-ins used by the script *)

Module Py.

(** Truth value of a [str]: only the empty string is false. *)
Definition truthy (s : string) : bool :=
  match s with
  | "" => false
  | String _ _ => true
  end.

(** [a or b] on strings. *)
Definition or_ (a b : string) : string := if truthy a then a else b.

(** [s.startswith(p)]. *)
Definition startswith (s p : string) : bool := String.prefix p s.

(** [s.split(sep)] for a one-character separator: never empty. *)
Fixpoint split (sep : ascii) (s : string) : list string :=
  match s with
  | "" => [""]
  | String c r =>
      if Ascii.eqb c sep then "" :: split sep r
      else match split sep r with
           | h :: t => String c h :: t
           | [] => [String c ""]
           end
  end.

(** [l[-1]] on a list known to be non-empty. *)
Definition last_item (l : list string) : string := List.last l "".

(** Characters [int()] skips around the number: the ASCII white space and,
    among the code points from 127 to 255, NEL and NBSP. *)
Definition is_space (c : ascii) : bool :=
  let n := nat_of_ascii c in
  (((9 <=? n) && (n <=? 13)) || (n =? 32) || (n =? 133) || (n =? 160))%nat.

Definition is_digit (c : ascii) : bool :=
  let n := nat_of_ascii c in ((48 <=? n) && (n <=? 57))%nat.

Fixpoint lstrip (s : string) : string :=
  match s with
  | "" => ""
  | String c r => if is_space c then lstrip r else s
  end.

Fixpoint rstrip (s : string) : string :=
  match s with
  | "" => ""
  | String c r =>
      match rstrip r with
      | "" => if is_space c then "" else String c ""
      | r' => String c r'
      end
  end.

Definition strip (s : string) : string := rstrip (lstrip s).

(** Digits with single underscores between them; [after_us] says that an
    underscore (or nothing at all) came just before.  The digits are
    returned without the underscores. *)
Fixpoint digits_us (after_us : bool) (s : string) : option string :=
  match s with
  | "" => if after_us then None else Some ""
  | String c r =>
      if is_digit c then option_map (String c) (digits_us false r)
      else if Ascii.eqb c "_"
           then (if after_us then None else digits_us true r)
           else None
  end.

(** An optional sign in front of the digits. *)
Definition sign_split (t : string) : bool * string :=
  match t with
  | "" => (false, t)
  | String a r =>
      if Ascii.eqb a "+" then (false, r)
      else if Ascii.eqb a "-" then (true, r)
      else (false, t)
  end.

(** [c in s] for one character. *)
Fixpoint contains (c : ascii) (s : string) : bool :=
  match s with
  | "" => false
  | String a r => Ascii.eqb a c || contains c r
  end.

(** Every character is a decimal digit. *)
Fixpoint all_digits (s : string) : bool :=
  match s with
  | "" => true
  | String c r => is_digit c && all_digits r
  end.

(** [sys.get_int_max_str_digits()], at its default. *)
Definition max_str_digits : N := 4300.

(** A run of digits the interpreter still converts: leading zeros count,
    sign, white space and underscores do not. *)
Definition within_digits (digits : string) : bool :=
  (N.of_nat (String.length digits) <=? max_str_digits)%N.

(** [int(s)] in base ten; [None] stands for [ValueError], raised for a text
    that is no number and for one with too many digits alike. *)
Definition int (s : string) : option Z :=
  let '(neg, body) := sign_split (strip s) in
  match digits_us true body with
  | Some ds =>
      if within_digits ds then
        match NilEmpty.uint_of_string ds with
        | Some u =>
            let n := Z.of_N (N.of_uint u) in
            Some (if neg then (- n)%Z else n)
        | None => None
        end
      else None
  | None => None
  end.

(** [str(n)] for a natural number. *)
Definition str (n : N) : string := NilEmpty.string_of_uint (N.to_uint n).

Fixpoint zeros (k : nat) : string :=
  match k with
  | O => ""
  | S k' => String "0" (zeros k')
  end.

(** Left padding with zeros up to [width] characters. *)
Definition zfill (width : nat) (s : string) : string :=
  zeros (width - String.length s) +:+ s.

(** The format specification [:03d]: the sign counts in the width and
    stays in front of the zeros.  [None] stands for the [ValueError] raised
    when the number has too many digits. *)
Definition format_03d (z : Z) : option string :=
  if within_digits (str (Z.abs_N z)) then
    Some (if (z <? 0)%Z then "-" +:+ zfill 2 (str (Z.abs_N z))
          else zfill 3 (str (Z.to_N z)))
  else None.

End Py.

(** ** The clock *)

Record datetime : Type := mk_datetime {
  dt_year : N;
  dt_month : N;
  dt_day : N;
  dt_hour : N;
  dt_minute : N;
  dt_second : N
}.

(** [strftime("%m")] *)
Definition strftime_m (d : datetime) : string := Py.zfill 2 (Py.str (dt_month d)).

(** [strftime("%y")] *)
Definition strftime_y (d : datetime) : string :=
  Py.zfill 2 (Py.str (dt_year d mod 100)).

(** [strftime("%Y-%m-%d %H:%M:%S")] *)
Definition strftime_stamp (d : datetime) : string :=
  Py.zfill 4 (Py.str (dt_year d)) +:+ "-" +:+ strftime_m d +:+ "-"
  +:+ Py.zfill 2 (Py.str (dt_day d)) +:+ " "
  +:+ Py.zfill 2 (Py.str (dt_hour d)) +:+ ":"
  +:+ Py.zfill 2 (Py.str (dt_minute d)) +:+ ":"
  +:+ Py.zfill 2 (Py.str (dt_second d)).

(** ** The outside world *)

(** The three record types; each one names its spreadsheet in [sheets]. *)
Inductive RecordType : Type := Complaints | Deviation | ChangeControl.

Definition RecordType_eqb (a b : RecordType) : bool :=
  match a, b with
  | Complaints, Complaints | Deviation, Deviation
  | ChangeControl, ChangeControl => true
  | _, _ => false
  end.

Definition Row : Type := list string.
Definition Values : Type := list Row.

(** What [st.file_uploader] hands over. *)
Record UploadedFile : Type := mk_uploaded {
  uf_name : string;
  uf_type : string;
  uf_data : string
}.

(** A file as the drive keeps it. *)
Record DriveFile : Type := mk_drive_file {
  df_id : string;
  df_name : string;
  df_parents : list string;
  df_mimetype : string;
  df_data : string
}.

(** Symbolic texts of the messages the script shows. *)
Inductive Message : Type :=
| RegisterNew (t : RecordType)
| AdminPanel
| Registered (t : RecordType) (record_id : string)
| DownloadAttachment (url : string)
| FillRequired
| AccessGranted
| IncorrectPassword
| Records (t : RecordType)
| NoRecords (t : RecordType).

(** Calls to the remote services and Streamlit output, as they happen. *)
Inductive Event : Type :=
| GetAllValues (t : RecordType)
| AppendRow (t : RecordType) (row : Row)
| DriveCreate (f : DriveFile)
| StSubheader (m : Message)
| StSuccess (m : Message)
| StError (m : Message)
| StMarkdown (m : Message)
| StInfo (m : Message)
| StTable (data : Values).

Record World : Type := mk_world {
  sheet_values : RecordType -> Values;     (* rows of each spreadsheet *)
  drive_files : list DriveFile;            (* content of the drive *)
  drive_folder_id : string;                (* GOOGLE_DRIVE_FOLDER_ID *)
  drive_fresh_id : list DriveFile -> string; (* the id the drive gives next *)
  clock : nat -> datetime;                 (* what the k-th look at the clock shows *)
  clock_reads : nat;                       (* looks at the clock so far *)
  trace : list Event                       (* events so far, oldest first *)
}.

Inductive Exn : Type := ValueError.

Inductive Result (A : Type) : Type :=
| Ok (a : A)
| Raise (e : Exn).
Arguments Ok {A} a.
Arguments Raise {A} e.

(** A computation runs in a world and leaves a world, also when it raises. *)
Definition M (A : Type) : Type := World -> World * Result A.

Definition ret {A} (a : A) : M A := fun w => (w, Ok a).

Definition bind {A B} (m : M A) (k : A -> M B) : M B :=
  fun w =>
    match m w with
    | (w', Ok a) => k a w'
    | (w', Raise e) => (w', Raise e)
    end.

Definition raise {A} (e : Exn) : M A := fun w => (w, Raise e).

Notation "x <- m ;; k" := (bind m (fun x => k))
  (at level 61, m at next level, right associativity).
Notation "m ;; k" := (bind m (fun _ => k))
  (at level 61, right associativity).

Definition emit (e : Event) : M unit :=
  fun w =>
    (mk_world (sheet_values w) (drive_files w) (drive_folder_id w)
              (drive_fresh_id w) (clock w) (clock_reads w) (trace w ++ [e]),
     Ok tt).

(** [datetime.now()] *)
Definition datetime_now : M datetime :=
  fun w =>
    (mk_world (sheet_values w) (drive_files w) (drive_folder_id w)
              (drive_fresh_id w) (clock w) (S (clock_reads w)) (trace w),
     Ok (clock w (clock_reads w))).

(** [sheet.get_all_values()] *)
Definition get_all_values (t : RecordType) : M Values :=
  emit (GetAllValues t) ;; fun w => (w, Ok (sheet_values w t)).

(** [sheet.append_row(row)] *)
Definition append_row (t : RecordType) (row : Row) : M unit :=
  emit (AppendRow t row) ;;
  fun w =>
    (mk_world (fun t' => if RecordType_eqb t' t
                         then sheet_values w t' ++ [row]
                         else sheet_values w t')
              (drive_files w) (drive_folder_id w) (drive_fresh_id w)
              (clock w) (clock_reads w) (trace w),
     Ok tt).

(** [st.secrets["GOOGLE_DRIVE_FOLDER_ID"]] *)
Definition secret_folder_id : M string := fun w => (w, Ok (drive_folder_id w)).

(** [drive_service.files().create(body, media_body, fields="id").execute()]:
    the drive stores the file under an id of its own choice and answers with
    that id. *)
Definition files_create (name : string) (parents : list string)
    (mimetype data : string) : M string :=
  fun w =>
    let f := mk_drive_file (drive_fresh_id w (drive_files w))
                           name parents mimetype data in
    (mk_world (sheet_values w) (drive_files w ++ [f]) (drive_folder_id w)
              (drive_fresh_id w) (clock w) (clock_reads w)
              (trace w ++ [DriveCreate f]),
     Ok (df_id f)).

(** [int(s)], raising [ValueError] *)
Definition int (s : string) : M Z :=
  match Py.int s with
  | Some z => ret z
  | None => raise ValueError
  end.

(** [f"{n:03d}"], raising [ValueError] *)
Definition format_03d (n : Z) : M string :=
  match Py.format_03d n with
  | Some text => ret text
  | None => raise ValueError
  end.

Fixpoint for_each {A} (l : list A) (body : A -> M unit) : M unit :=
  match l with
  | [] => ret tt
  | x :: r => body x ;; for_each r body
  end.

Fixpoint collect {A B} (l : list A) (f : A -> M B) : M (list B) :=
  match l with
  | [] => ret []
  | x :: r => y <- f x ;; ys <- collect r f ;; ret (y :: ys)
  end.

(** ** The script *)

(** [upload_to_drive(uploaded_file, filename)] *)
Definition upload_to_drive (uploaded_file : UploadedFile) (filename : string)
  : M string :=
  folder_id <- secret_folder_id ;;
  file_id <- files_create filename [folder_id]
               (uf_type uploaded_file) (uf_data uploaded_file) ;;
  ret ("https://drive.google.com/file/d/" +:+ file_id +:+ "/view").

(** [get_sheet_values(sheet)] *)
Definition get_sheet_values (sheet : RecordType) : M Values :=
  get_all_values sheet.

(** The id cell of the last row: [cached_values[-1]], then its second
    column when there is one. *)
Definition last_id_of (cached_values : Values) : string :=
  let last_row := List.last cached_values [] in
  if (1 <? List.length last_row)%nat then nth 1 last_row "" else "".

(** [generate_record_id(sheet, prefix)] *)
Definition generate_record_id (sheet : RecordType) (prefix : string)
  : M string :=
  today <- datetime_now ;;
  let month := strftime_m today in
  let year := strftime_y today in
  cached_values <- get_sheet_values sheet ;;
  if (List.length cached_values <? 2)%nat then
    ret (prefix +:+ "-" +:+ month +:+ year +:+ "-001")
  else
    let last_id := last_id_of cached_values in
    next_serial <-
      (if Py.startswith last_id (prefix +:+ "-" +:+ month +:+ year) then
         last_serial <- int (Py.last_item (Py.split "-" last_id)) ;;
         ret (last_serial + 1)%Z
       else ret 1%Z) ;;
    serial <- format_03d next_serial ;;
    ret (prefix +:+ "-" +:+ month +:+ year +:+ "-" +:+ serial).

(** What the widgets hold in one run of the script, and which button was
    pressed. *)
Record Inputs : Type := mk_inputs {
  (* Complaints *)
  product : string;
  severity : string;
  contact_number : string;
  details : string;
  submitted_by : string;
  complaint_file : option UploadedFile;
  submit_complaint : bool;
  (* Deviation *)
  department : string;
  deviation_type : string;
  deviation_description : string;
  reported_by : string;
  deviation_file : option UploadedFile;
  submit_deviation : bool;
  (* Change Control *)
  change_type : string;
  justification : string;
  impact_analysis : string;
  requested_by : string;
  change_control_file : option UploadedFile;
  submit_change_request : bool;
  (* Admin View *)
  admin_password : string;
  access_admin_panel : bool
}.

(** The three forms differ only in these tables. *)

Definition prefix_of (t : RecordType) : string :=
  match t with
  | Complaints => "C"
  | Deviation => "D"
  | ChangeControl => "CC"
  end.

(** The operands of the [and] chain guarding the append. *)
Definition required_fields (t : RecordType) (i : Inputs) : list string :=
  match t with
  | Complaints => [product i; details i; contact_number i]
  | Deviation => [department i; deviation_description i; reported_by i]
  | ChangeControl =>
      [change_type i; justification i; impact_analysis i; requested_by i]
  end.

(** The cells of [new_data] between the id and the attachment URL. *)
Definition row_fields (t : RecordType) (i : Inputs) : list string :=
  match t with
  | Complaints =>
      [product i; severity i; contact_number i; details i;
       Py.or_ (submitted_by i) ""]
  | Deviation =>
      [department i; deviation_type i; deviation_description i; reported_by i]
  | ChangeControl =>
      [change_type i; justification i; impact_analysis i; requested_by i]
  end.

Definition uploaded_file_of (t : RecordType) (i : Inputs)
  : option UploadedFile :=
  match t with
  | Complaints => complaint_file i
  | Deviation => deviation_file i
  | ChangeControl => change_control_file i
  end.

Definition submit_button (t : RecordType) (i : Inputs) : bool :=
  match t with
  | Complaints => submit_complaint i
  | Deviation => submit_deviation i
  | ChangeControl => submit_change_request i
  end.

(** The body of [if st.button("Submit ...")]. *)
Definition submit (t : RecordType) (record_id : string) (i : Inputs)
  : M unit :=
  if forallb Py.truthy (required_fields t i) then
    file_url <-
      match uploaded_file_of t i with
      | Some uploaded_file =>
          upload_to_drive uploaded_file
            (record_id +:+ "_" +:+ uf_name uploaded_file)
      | None => ret ""
      end ;;
    now <- datetime_now ;;
    let new_data :=
      strftime_stamp now :: record_id :: row_fields t i ++ [file_url] in
    append_row t new_data ;;
    emit (StSuccess (Registered t record_id)) ;;
    if Py.truthy file_url
    then emit (StMarkdown (DownloadAttachment file_url))
    else ret tt
  else emit (StError FillRequired).

(** One [with tab:] block of a form. *)
Definition form_tab (t : RecordType) (i : Inputs) : M unit :=
  emit (StSubheader (RegisterNew t)) ;;
  record_id <- generate_record_id t (prefix_of t) ;;
  if submit_button t i then submit t record_id i else ret tt.

(** The body of [if st.button("Access Admin Panel")]. *)
Definition access_admin (password : string) : M unit :=
  if String.eqb password "admin123" then
    emit (StSuccess AccessGranted) ;;
    sheet_data <-
      collect [Complaints; Deviation; ChangeControl]
        (fun name => data <- get_sheet_values name ;; ret (name, data)) ;;
    for_each sheet_data
      (fun '(name, data) =>
         emit (StSubheader (Records name)) ;;
         if (1 <? List.length data)%nat
         then emit (StTable data)
         else emit (StInfo (NoRecords name)))
  else emit (StError IncorrectPassword).

Definition admin_tab (i : Inputs) : M unit :=
  emit (StSubheader AdminPanel) ;;
  if access_admin_panel i then access_admin (admin_password i) else ret tt.

(** One run of the script, top to bottom. *)
Definition script (i : Inputs) : M unit :=
  form_tab Complaints i ;;
  form_tab Deviation i ;;
  form_tab ChangeControl i ;;
  admin_tab i.

(** ** Vocabulary of the statements *)

(** What the next look at the clock shows. *)
Definition today (w : World) : datetime := clock w (clock_reads w).

(** The text [f"{prefix}-{month}{year}"] for a date. *)
Definition id_segment (prefix : string) (d : datetime) : string :=
  prefix +:+ "-" +:+ strftime_m d +:+ strftime_y d.

(** The text [f"{prefix}-{month}{year}-"] followed by a serial. *)
Definition record_id (prefix : string) (d : datetime) (serial : string)
  : string :=
  prefix +:+ "-" +:+ strftime_m d +:+ strftime_y d +:+ "-" +:+ serial.

(** The world after one look at the clock and one read of a sheet. *)
Definition after_read (t : RecordType) (w : World) : World :=
  mk_world (sheet_values w) (drive_files w) (drive_folder_id w)
           (drive_fresh_id w) (clock w) (S (clock_reads w))
           (trace w ++ [GetAllValues t]).

(** A field is blank when it holds nothing but white space ([not s.strip()]);
    the empty field is one of them. *)
Fixpoint blank (s : string) : bool :=
  match s with
  | "" => true
  | String c r => Py.is_space c && blank r
  end.

(** The sheets after a row is appended to one of them. *)
Definition with_row (t : RecordType) (row : Row)
    (values : RecordType -> Values) : RecordType -> Values :=
  fun t' => if RecordType_eqb t' t then values t' ++ [row] else values t'.

(** The file the drive creates for an attachment of a record, and its URL. *)
Definition stored_file (w : World) (record_id : string) (f : UploadedFile)
  : DriveFile :=
  mk_drive_file (drive_fresh_id w (drive_files w))
                (record_id +:+ "_" +:+ uf_name f)
                [drive_folder_id w] (uf_type f) (uf_data f).

Definition file_url_of (f : DriveFile) : string :=
  "https://drive.google.com/file/d/" +:+ df_id f +:+ "/view".

(** The row a form writes: time stamp, id, the fields, attachment URL. *)
Definition new_row (t : RecordType) (i : Inputs) (d : datetime)
    (record_id file_url : string) : Row :=
  strftime_stamp d :: record_id :: row_fields t i ++ [file_url].

(** The last cell of a row of a form: its attachment URL. *)
Definition attachment_url (row : Row) : string := List.last row "".

(** The tables rendered so far, oldest first. *)
Definition tables_shown (events : list Event) : list Values :=
  flat_map (fun e => match e with StTable data => [data] | _ => [] end)
           events.

Definition shown (w : World) : list Values := tables_shown (trace w).

(** What the admin view renders for one sheet. *)
Definition listing (t : RecordType) (w : World) : list Event :=
  [StSubheader (Records t);
   if (1 <? List.length (sheet_values w t))%nat
   then StTable (sheet_values w t)
   else StInfo (NoRecords t)].

(** A computation keeps an observation of the world when running it never
    changes what is observed, whether it returns or raises. *)
Definition keeps {A X : Type} (obs : World -> X) (m : M A) : Prop :=
  forall w, obs (fst (m w)) = obs w.

(** ** Sample data *)

Definition sample_now : datetime := mk_datetime 2026 11 4 16 28 0.

Definition sample_sheets (t : RecordType) : Values :=
  match t with
  | Complaints =>
      [["Timestamp"; "ID"; "Product"; "Severity"; "Contact"; "Details";
        "Submitted By"; "Attachment"];
       ["2026-11-02 09:15:00"; "C-1126-005"; "Aspirin"; "Low"; "555-1234";
        "bottle cracked"; ""; ""]]
  | Deviation =>
      [["Timestamp"; "ID"; "Department"; "Type"; "Description";
        "Reported By"; "Attachment"]]
  | ChangeControl =>
      [["Timestamp"; "ID"; "Change Type"; "Justification"; "Impact";
        "Requested By"; "Attachment"];
       ["2026-10-30 17:40:12"; "CC-1026-003"; "Process"; "new supplier";
        "none"; "R. Diaz"; ""]]
  end.

Definition sample_world : World :=
  mk_world sample_sheets [] "folder-1"
           (fun files => "file-" +:+ Py.str (N.of_nat (List.length files)))
           (fun _ => sample_now) 0 [].



(** A sheet whose last row has a single cell. *)
Definition short_row_world : World :=
  mk_world (fun _ => [["Timestamp"; "ID"]; ["2026-11-02 09:15:00"]]) []
           "folder-1" (fun _ => "file-0") (fun _ => sample_now) 0 [].

Definition sample_file : UploadedFile :=
  mk_uploaded "photo.png" "image/png" "PNG-bytes".

(** A complaint with the given product name and attachment, its submit
    button pressed; the other forms are filled in but not submitted. *)
Definition complaint_of (name : string) (file : option UploadedFile)
  : Inputs :=
  mk_inputs name "Low" "555-1234" "bottle cracked" "" file true
            "Packaging" "Minor" "label misprint" "J. Smith" None false
            "Process" "new supplier" "none" "R. Diaz" None false
            "" false.

(** Nothing filled in on the forms; a password typed and the admin button
    pressed. *)
Definition admin_attempt (password : string) : Inputs :=
  mk_inputs "" "High" "" "" "" None false
            "" "Minor" "" "" None false
            "Equipment" "" "" "" None false
            password true.

(** ** Vocabulary of the further statements *)

(** Running a computation relates the world before to the world after,
    whether it returns or raises. *)
Definition steps {A : Type} (R : World -> World -> Prop) (m : M A) : Prop :=
  forall w, R w (fst (m w)).

(** The sheet of a record type got at most one more row at its end, and
    none when the button was not pressed; its old rows are as they were. *)
Definition appends_rows (t : RecordType) (pressed : bool) (w w' : World)
  : Prop :=
  exists rows : list Row,
    List.length rows <= 1 /\
    (pressed = false -> rows = []) /\
    sheet_values w' t = sheet_values w t ++ rows.

(** A sheet with something below its header row. *)
Definition has_data_rows (values : Values) : bool :=
  (1 <? List.length values)%nat.

(** The sample world at another moment. *)
Definition sample_world_at (moments : nat -> datetime) : World :=
  mk_world sample_sheets [] "folder-1"
           (fun files => "file-" +:+ Py.str (N.of_nat (List.length files)))
           moments 0 [].

(** Midnight between November and December passes after the first look at
    the clock. *)
Definition midnight (k : nat) : datetime :=
  match k with
  | O => mk_datetime 2026 11 30 23 59 59
  | S _ => mk_datetime 2026 12 1 0 0 0
  end.

(** The sample sheets, with an id in the Deviation sheet that [int] cannot
    read. *)
Definition unreadable_deviation_world : World :=
  mk_world (fun t =>
              match t with
              | Deviation =>
                  [["Timestamp"; "ID"; "Department"; "Type"; "Description";
                    "Reported By"; "Attachment"];
                   ["2026-11-03 10:00:00"; "D-1126-abc"; "Packaging"; "Minor";
                    "label misprint"; "J. Smith"; ""]]
              | _ => sample_sheets t
              end)
           [] "folder-1" (fun _ => "file-0") (fun _ => sample_now) 0 [].

(** A sheet whose last id stops after the dash. *)
Definition trailing_dash_world : World :=
  mk_world (fun _ => [["Timestamp"; "ID"];
                      ["2026-11-02 09:15:00"; "C-1126-"]])
           [] "folder-1" (fun _ => "file-0") (fun _ => sample_now) 0 [].

(** Sheets without any row, not even a header. *)
Definition empty_sheets_world : World :=
  mk_world (fun _ => []) [] "folder-1" (fun _ => "file-0")
           (fun _ => sample_now) 0 [].

(** * Properties *)

(** ** Facts about the built-ins *)

Module PyFacts.
Import Py.

Lemma split_not_nil (sep : ascii) (s : string) : split sep s <> [].
Proof.
  destruct s as [|c r]; simpl; [discriminate|].
  destruct (Ascii.eqb c sep); [discriminate|].
  destruct (split sep r); discriminate.
Qed.

(** No piece of a split holds the separator. *)
Lemma split_free (sep : ascii) (s x : string) :
  In x (split sep s) -> contains sep x = false.
Proof.
  revert x; induction s as [|c r IH]; intros x Hin; simpl in Hin.
  - destruct Hin as [<-|[]]; reflexivity.
  - destruct (Ascii.eqb c sep) eqn:Ec.
    + destruct Hin as [<-|Hin]; [reflexivity|auto].
    + destruct (split sep r) as [|h t] eqn:Es.
      * destruct Hin as [<-|[]]; simpl; now rewrite Ec.
      * destruct Hin as [<-|Hin].
        -- simpl; rewrite Ec; simpl; apply IH; now left.
        -- apply IH; now right.
Qed.

Lemma last_in {A} (l : list A) (d : A) : l <> [] -> In (List.last l d) l.
Proof.
  induction l as [|a l IH]; [congruence|intros _].
  destruct l as [|b l]; [now left|].
  right; apply IH; discriminate.
Qed.

Lemma last_item_free (sep : ascii) (s : string) :
  contains sep (last_item (split sep s)) = false.
Proof.
  apply split_free with (s := s), last_in, split_not_nil.
Qed.

Lemma lstrip_free (c : ascii) (s : string) :
  contains c s = false -> contains c (lstrip s) = false.
Proof.
  induction s as [|a r IH]; simpl; [auto|]; intros H.
  apply orb_false_iff in H as [Ha Hr].
  destruct (is_space a); [auto|]; simpl; now rewrite Ha, Hr.
Qed.

Lemma rstrip_free (c : ascii) (s : string) :
  contains c s = false -> contains c (rstrip s) = false.
Proof.
  induction s as [|a r IH]; simpl; [auto|]; intros H.
  apply orb_false_iff in H as [Ha Hr]; specialize (IH Hr).
  destruct (rstrip r) as [|b r'].
  - destruct (is_space a); simpl; [reflexivity|now rewrite Ha].
  - simpl in *; now rewrite Ha, IH.
Qed.

Lemma strip_free (c : ascii) (s : string) :
  contains c s = false -> contains c (strip s) = false.
Proof. intros H; apply rstrip_free, lstrip_free, H. Qed.

(** Without a minus sign in the text, [int] gives no negative number. *)
Lemma int_nonneg (s : string) (z : Z) :
  contains "-" s = false -> int s = Some z -> (0 <= z)%Z.
Proof.
  intros Hfree; apply (strip_free "-") in Hfree.
  unfold int, sign_split.
  destruct (strip s) as [|a r].
  - simpl; discriminate.
  - simpl in Hfree; apply orb_false_iff in Hfree as [Ha _].
    rewrite Ha.
    destruct (Ascii.eqb a "+");
      (destruct (digits_us true _); [|discriminate]);
      (destruct (within_digits _); [|discriminate]);
      (destruct (NilEmpty.uint_of_string _); [|discriminate]);
      intros [= <-]; lia.
Qed.

Lemma format_03d_nonneg (z : Z) :
  (0 <= z)%Z ->
  format_03d z =
    if within_digits (str (Z.to_N z)) then Some (zfill 3 (str (Z.to_N z)))
    else None.
Proof.
  intros Hz; unfold format_03d.
  replace (Z.abs_N z) with (Z.to_N z) by lia.
  destruct (Z.ltb_spec z 0); [lia|reflexivity].
Qed.

Lemma length_zeros (k : nat) : String.length (zeros k) = k.
Proof. induction k; simpl; auto. Qed.

Lemma length_app (a b : string) :
  String.length (a +:+ b) = String.length a + String.length b.
Proof. induction a as [|c a IH]; simpl; [reflexivity|now rewrite IH]. Qed.

(** Filling up to three characters keeps a number within the limit. *)
Lemma within_zfill (n : N) :
  within_digits (str n) = true -> within_digits (zfill 3 (str n)) = true.
Proof.
  unfold within_digits, zfill, max_str_digits.
  rewrite length_app, length_zeros; intros H.
  apply N.leb_le in H; apply N.leb_le; lia.
Qed.

(** A pattern that holds a character is no prefix of the empty string. *)
Lemma startswith_empty (p q : string) (c : ascii) :
  startswith "" (p +:+ String c q) = false.
Proof. destruct p; reflexivity. Qed.

(** *** Reading back what [:03d] wrote *)

Lemma append_assoc (a b c : string) : (a +:+ b) +:+ c = a +:+ b +:+ c.
Proof. induction a as [|x a IH]; simpl; [reflexivity|now rewrite IH]. Qed.

Lemma split_free_whole (sep : ascii) (s : string) :
  contains sep s = false -> split sep s = [s].
Proof.
  induction s as [|c r IH]; simpl; [reflexivity|]; intros H.
  apply orb_false_iff in H as [Hc Hr].
  now rewrite Hc, (IH Hr).
Qed.

(** Splitting goes through a separator between two texts. *)
Lemma split_app (sep : ascii) (x y : string) :
  split sep (x +:+ String sep y) = split sep x ++ split sep y.
Proof.
  induction x as [|c x IH]; simpl.
  - now rewrite Ascii.eqb_refl.
  - destruct (Ascii.eqb c sep); rewrite IH; [reflexivity|].
    pose proof (split_not_nil sep x) as Hne.
    destruct (split sep x); [congruence|reflexivity].
Qed.

Lemma last_item_app (sep : ascii) (x y : string) :
  contains sep y = false ->
  last_item (split sep (x +:+ String sep y)) = y.
Proof.
  intros Hy; unfold last_item.
  rewrite split_app, (split_free_whole _ _ Hy); apply last_last.
Qed.

Lemma digit_not (c d : ascii) :
  is_digit d = false -> is_digit c = true -> Ascii.eqb c d = false.
Proof.
  intros Hd Hc; destruct (Ascii.eqb_spec c d); [congruence|reflexivity].
Qed.

Lemma digit_not_space (c : ascii) : is_digit c = true -> is_space c = false.
Proof.
  unfold is_digit, is_space; intros H.
  apply andb_true_iff in H as [H1 H2].
  apply Nat.leb_le in H1, H2.
  repeat (apply orb_false_iff; split);
    [apply andb_false_iff; right; apply Nat.leb_gt; lia
    |apply Nat.eqb_neq; lia..].
Qed.

Lemma digits_free (c : ascii) (s : string) :
  is_digit c = false -> all_digits s = true -> contains c s = false.
Proof.
  intros Hc; induction s as [|a r IH]; simpl; [reflexivity|]; intros H.
  apply andb_true_iff in H as [Ha Hr].
  now rewrite (digit_not a c Hc Ha), IH.
Qed.

Lemma lstrip_digits (s : string) : all_digits s = true -> lstrip s = s.
Proof.
  destruct s as [|c r]; simpl; [reflexivity|]; intros H.
  apply andb_true_iff in H as [Hc _].
  now rewrite (digit_not_space c Hc).
Qed.

Lemma rstrip_digits (s : string) : all_digits s = true -> rstrip s = s.
Proof.
  induction s as [|c r IH]; simpl; [reflexivity|]; intros H.
  apply andb_true_iff in H as [Hc Hr].
  rewrite (IH Hr), (digit_not_space c Hc); now destruct r.
Qed.

Lemma digits_us_digits (s : string) :
  all_digits s = true -> digits_us false s = Some s.
Proof.
  induction s as [|c r IH]; simpl; [reflexivity|]; intros H.
  apply andb_true_iff in H as [Hc Hr].
  now rewrite Hc, (IH Hr).
Qed.

Lemma all_digits_app (a b : string) :
  all_digits a = true -> all_digits b = true -> all_digits (a +:+ b) = true.
Proof.
  intros Ha Hb; induction a as [|c a IH]; simpl in *; [exact Hb|].
  apply andb_true_iff in Ha as [Hc Ha]; now rewrite Hc, IH.
Qed.

Lemma all_digits_zeros (k : nat) : all_digits (zeros k) = true.
Proof. induction k; simpl; auto. Qed.

Lemma all_digits_uint (d : Decimal.uint) :
  all_digits (NilEmpty.string_of_uint d) = true.
Proof. induction d; simpl; auto. Qed.

Lemma all_digits_zfill (width : nat) (n : N) :
  all_digits (zfill width (str n)) = true.
Proof.
  apply all_digits_app; [apply all_digits_zeros|apply all_digits_uint].
Qed.

Lemma str_not_empty (n : N) : str n <> "".
Proof.
  unfold str; destruct n as [|p]; [discriminate|].
  pose proof (DecimalPos.Unsigned.to_uint_nonnil p) as Hnil.
  simpl; destruct (Pos.to_uint p); [congruence|discriminate..].
Qed.

Lemma uint_of_zeros (k : nat) (d : Decimal.uint) :
  exists u, NilEmpty.uint_of_string (zeros k +:+ NilEmpty.string_of_uint d)
            = Some u /\ N.of_uint u = N.of_uint d.
Proof.
  induction k as [|k [u [Hu Hn]]]; simpl.
  - exists d; split; [apply NilEmpty.usu|reflexivity].
  - exists (Decimal.D0 u); rewrite Hu; split; [reflexivity|exact Hn].
Qed.

(** [int] reads a zero-padded natural number back, as long as the text is
    within the limit. *)
Lemma int_zfill (width : nat) (n : N) :
  within_digits (zfill width (str n)) = true ->
  int (zfill width (str n)) = Some (Z.of_N n).
Proof.
  intros Hwithin.
  pose proof (all_digits_zfill width n) as Hd.
  unfold int, strip.
  rewrite (lstrip_digits _ Hd), (rstrip_digits _ Hd).
  destruct (zfill width (str n)) as [|c r] eqn:E.
  { exfalso; unfold zfill in E.
    destruct (zeros _); [|discriminate].
    now apply (str_not_empty n). }
  simpl in Hd; apply andb_true_iff in Hd as [Hc Hr].
  unfold sign_split.
  rewrite (digit_not c "+" eq_refl Hc), (digit_not c "-" eq_refl Hc).
  simpl digits_us; rewrite Hc, (digits_us_digits _ Hr); simpl option_map.
  cbv iota beta; rewrite Hwithin, <- E; unfold zfill, str.
  destruct (uint_of_zeros (width - String.length
              (NilEmpty.string_of_uint (N.to_uint n))) (N.to_uint n))
    as [u [Hu Hn]].
  rewrite Hu, Hn, DecimalN.Unsigned.of_to; reflexivity.
Qed.

End PyFacts.

(** ** The record id generator *)

Section Generator.

Variable w : World.
Variable sheet : RecordType.
Variable prefix : string.

Let cached_values := sheet_values w sheet.

(** The generator looks once at the clock, reads the sheet once and
    changes nothing else, whatever it answers. *)
Lemma generate_record_id_world :
  fst (generate_record_id sheet prefix w) = after_read sheet w.
Proof.
  unfold generate_record_id, int, format_03d, get_sheet_values,
    get_all_values, datetime_now, emit, bind, ret, raise, after_read.
  cbn [fst snd sheet_values drive_files drive_folder_id drive_fresh_id
       clock clock_reads trace].
  destruct (List.length (sheet_values w sheet) <? 2)%nat; [reflexivity|].
  destruct (Py.startswith _ _).
  - destruct (Py.int _) as [z|]; [|reflexivity].
    destruct (Py.format_03d (z + 1)); reflexivity.
  - reflexivity.
Qed.

(** The answer of the generator, by cases as the code takes them. *)
Lemma generate_record_id_result :
  snd (generate_record_id sheet prefix w) =
  if (List.length cached_values <? 2)%nat then
    Ok (record_id prefix (today w) "001")
  else if Py.startswith (last_id_of cached_values)
            (id_segment prefix (today w)) then
    match Py.int (Py.last_item (Py.split "-" (last_id_of cached_values))) with
    | Some last_serial =>
        match Py.format_03d (last_serial + 1) with
        | Some serial => Ok (record_id prefix (today w) serial)
        | None => Raise ValueError
        end
    | None => Raise ValueError
    end
  else Ok (record_id prefix (today w) "001").
Proof.
  unfold generate_record_id, int, format_03d, get_sheet_values,
    get_all_values, datetime_now, emit, bind, ret, raise, record_id,
    id_segment, today, cached_values.
  cbn [fst snd sheet_values drive_files drive_folder_id drive_fresh_id
       clock clock_reads trace].
  destruct (List.length (sheet_values w sheet) <? 2)%nat; [reflexivity|].
  destruct (Py.startswith _ _).
  - destruct (Py.int _) as [z|]; [|reflexivity].
    destruct (Py.format_03d (z + 1)); reflexivity.
  - reflexivity.
Qed.

End Generator.

Lemma generate_record_id_run (w : World) (sheet : RecordType)
    (prefix : string) (r : Result string) :
  snd (generate_record_id sheet prefix w) = r ->
  generate_record_id sheet prefix w = (after_read sheet w, r).
Proof.
  intros <-; rewrite <- (generate_record_id_world w sheet prefix).
  now destruct (generate_record_id sheet prefix w).
Qed.

Lemma data_rows_ltb (values : Values) :
  2 <= List.length values -> (List.length values <? 2)%nat = false.
Proof. intros H; apply Nat.ltb_ge, H. Qed.



(** C2: when the id cell of the last data row does not start with the
    current prefix-month-year text, the generator returns serial 001 for
    the current month and year, and does not raise. *)
Theorem generate_record_id_restart
    (w : World) (sheet : RecordType) (prefix : string) :
  2 <= List.length (sheet_values w sheet) ->
  Py.startswith (last_id_of (sheet_values w sheet))
                (id_segment prefix (today w)) = false ->
  generate_record_id sheet prefix w =
    (after_read sheet w, Ok (record_id prefix (today w) "001")).
Proof.
  intros Hrows Hstart.
  apply generate_record_id_run.
  now rewrite generate_record_id_result, (data_rows_ltb _ Hrows), Hstart.
Qed.

(** C3: on a sheet without data rows (a header row only, or nothing at
    all) the generator returns the prefix, a dash, the current month and
    year, and -001. *)
Theorem generate_record_id_first
    (w : World) (sheet : RecordType) (prefix : string) :
  List.length (sheet_values w sheet) < 2 ->
  generate_record_id sheet prefix w =
    (after_read sheet w,
     Ok (prefix +:+ "-" +:+ strftime_m (today w) +:+ strftime_y (today w)
         +:+ "-001")).
Proof.
  intros Hrows.
  apply generate_record_id_run.
  rewrite generate_record_id_result.
  apply Nat.ltb_lt in Hrows; now rewrite Hrows.
Qed.

(** C9: when the last data row has fewer than two columns the generator
    does not raise: the missing id counts as not matching and the serial is
    001 for the current month and year. *)
Theorem generate_record_id_short_row
    (w : World) (sheet : RecordType) (prefix : string) :
  2 <= List.length (sheet_values w sheet) ->
  List.length (List.last (sheet_values w sheet) []) < 2 ->
  generate_record_id sheet prefix w =
    (after_read sheet w, Ok (record_id prefix (today w) "001")).
Proof.
  intros Hrows Hcols.
  apply generate_record_id_run.
  rewrite generate_record_id_result, (data_rows_ltb _ Hrows).
  unfold last_id_of.
  replace (1 <? _)%nat with false
    by (symmetry; apply Nat.ltb_ge; lia).
  change (id_segment prefix (today w))
    with (prefix +:+ String "-" (strftime_m (today w) +:+ strftime_y (today w))).
  now rewrite PyFacts.startswith_empty.
Qed.

(** Where the restart stops: an id that does start with the current
    prefix-month-year text but ends in something [int] refuses makes the
    generator raise. *)
Example generate_record_id_unreadable_serial :
  let w := mk_world (fun _ => [["Timestamp"; "ID"];
                               ["2026-11-02 09:15:00"; "C-1126-abc"]])
                    [] "folder-1" (fun _ => "file-0") (fun _ => sample_now)
                    0 [] in
  snd (generate_record_id Complaints "C" w) = Raise ValueError.
Proof. reflexivity. Qed.

Lemma record_id_segment (prefix : string) (d : datetime) (serial : string) :
  record_id prefix d serial = id_segment prefix d +:+ String "-" serial.
Proof.
  unfold record_id, id_segment.
  now rewrite !PyFacts.append_assoc.
Qed.

(** The generator's own reading of a serial gives back the number that
    was written. *)
Lemma serial_read_back (prefix : string) (d : datetime) (n : Z) :
  (0 <= n)%Z ->
  Py.within_digits (Py.str (Z.to_N n)) = true ->
  Py.int (Py.last_item
            (Py.split "-" (record_id prefix d
                             (Py.zfill 3 (Py.str (Z.to_N n)))))) = Some n.
Proof.
  intros Hn Hdigits.
  rewrite record_id_segment, PyFacts.last_item_app.
  - rewrite PyFacts.int_zfill by (apply PyFacts.within_zfill, Hdigits).
    f_equal; lia.
  - apply PyFacts.digits_free; [reflexivity|apply PyFacts.all_digits_zfill].
Qed.

(** What the generator returns: a serial from 1 on that is short enough to
    be written. *)
Lemma generate_record_id_returns (w : World) (sheet : RecordType)
    (prefix s : string) :
  snd (generate_record_id sheet prefix w) = Ok s ->
  exists n : Z,
    (1 <= n)%Z /\
    Py.within_digits (Py.str (Z.to_N n)) = true /\
    s = record_id prefix (today w) (Py.zfill 3 (Py.str (Z.to_N n))).
Proof.
  rewrite generate_record_id_result.
  destruct (List.length _ <? 2)%nat.
  { intros [= <-]; exists 1%Z; repeat split; lia. }
  destruct (Py.startswith _ _).
  2:{ intros [= <-]; exists 1%Z; repeat split; lia. }
  destruct (Py.int _) as [N|] eqn:Hint; [|discriminate].
  assert (HN : (0 <= N)%Z).
  { eapply PyFacts.int_nonneg; [apply PyFacts.last_item_free|exact Hint]. }
  rewrite PyFacts.format_03d_nonneg by lia.
  destruct (Py.within_digits _) eqn:Hdigits; [|discriminate].
  intros [= <-]; exists (N + 1)%Z; repeat split; [lia|exact Hdigits].
Qed.

(** C10: whenever the generator returns, the result is the prefix, a dash,
    the current month and year, a dash, and a serial that is at least 1,
    written in decimal with zeros in front up to three digits; the serial is
    also what the generator itself reads from the end of that id. *)
Theorem generate_record_id_shape
    (w : World) (sheet : RecordType) (prefix s : string) :
  snd (generate_record_id sheet prefix w) = Ok s ->
  exists n : Z,
    (1 <= n)%Z /\
    s = prefix +:+ "-" +:+ strftime_m (today w) +:+ strftime_y (today w)
        +:+ "-" +:+ Py.zfill 3 (Py.str (Z.to_N n)) /\
    Py.int (Py.last_item (Py.split "-" s)) = Some n.
Proof.
  intros Hrun.
  destruct (generate_record_id_returns _ _ _ _ Hrun) as [n [Hn [Hdigits ->]]].
  exists n; repeat split; [exact Hn|].
  apply serial_read_back; [lia|exact Hdigits].
Qed.

(** ** The submission forms *)

Lemma required_filled (t : RecordType) (i : Inputs) :
  (forall f, In f (required_fields t i) -> f <> "") ->
  forallb Py.truthy (required_fields t i) = true.
Proof.
  intros H; apply forallb_forall; intros f Hf.
  specialize (H f Hf); destruct f; [congruence|reflexivity].
Qed.

Lemma required_missing (t : RecordType) (i : Inputs) :
  In "" (required_fields t i) ->
  forallb Py.truthy (required_fields t i) = false.
Proof.
  intros H; destruct (forallb _ _) eqn:E; [|reflexivity].
  rewrite forallb_forall in E; now specialize (E _ H).
Qed.

Lemma upload_to_drive_run (w : World) (f : UploadedFile) (filename : string) :
  upload_to_drive f filename w =
  (mk_world (sheet_values w)
            (drive_files w ++
               [mk_drive_file (drive_fresh_id w (drive_files w)) filename
                              [drive_folder_id w] (uf_type f) (uf_data f)])
            (drive_folder_id w) (drive_fresh_id w) (clock w) (clock_reads w)
            (trace w ++
               [DriveCreate
                  (mk_drive_file (drive_fresh_id w (drive_files w)) filename
                                 [drive_folder_id w] (uf_type f) (uf_data f))]),
   Ok ("https://drive.google.com/file/d/"
       +:+ drive_fresh_id w (drive_files w) +:+ "/view")).
Proof. reflexivity. Qed.

(** A complete form without attachment: one append, nothing else. *)
Lemma submit_plain (t : RecordType) (record_id : string) (i : Inputs)
    (w : World) :
  forallb Py.truthy (required_fields t i) = true ->
  uploaded_file_of t i = None ->
  submit t record_id i w =
  (mk_world (with_row t (new_row t i (today w) record_id "") (sheet_values w))
            (drive_files w) (drive_folder_id w) (drive_fresh_id w)
            (clock w) (S (clock_reads w))
            (trace w ++ [AppendRow t (new_row t i (today w) record_id "");
                         StSuccess (Registered t record_id)]),
   Ok tt).
Proof.
  intros Hreq Hfile; unfold submit; rewrite Hreq, Hfile.
  unfold bind, ret, datetime_now, append_row, emit, with_row, new_row, today;
    simpl.
  now rewrite <- app_assoc.
Qed.

(** A complete form with an attachment: one upload, then one append. *)
Lemma submit_attached (t : RecordType) (record_id : string) (i : Inputs)
    (w : World) (f : UploadedFile) :
  forallb Py.truthy (required_fields t i) = true ->
  uploaded_file_of t i = Some f ->
  let stored := stored_file w record_id f in
  let row := new_row t i (today w) record_id (file_url_of stored) in
  submit t record_id i w =
  (mk_world (with_row t row (sheet_values w))
            (drive_files w ++ [stored]) (drive_folder_id w) (drive_fresh_id w)
            (clock w) (S (clock_reads w))
            (trace w ++ [DriveCreate stored; AppendRow t row;
                         StSuccess (Registered t record_id);
                         StMarkdown (DownloadAttachment (file_url_of stored))]),
   Ok tt).
Proof.
  intros Hreq Hfile; unfold submit; rewrite Hreq, Hfile.
  unfold bind at 1; rewrite upload_to_drive_run.
  unfold bind, ret, datetime_now, append_row, emit, with_row, new_row, today,
    stored_file, file_url_of; simpl.
  now rewrite <- !app_assoc.
Qed.

Lemma RecordType_eqb_refl (t : RecordType) : RecordType_eqb t t = true.
Proof. now destruct t. Qed.

Lemma with_row_same (t : RecordType) (row : Row)
    (values : RecordType -> Values) :
  with_row t row values t = values t ++ [row].
Proof. unfold with_row; now rewrite RecordType_eqb_refl. Qed.

Lemma with_row_other (t t' : RecordType) (row : Row)
    (values : RecordType -> Values) :
  t' <> t -> with_row t row values t' = values t'.
Proof. unfold with_row; destruct t, t'; simpl; congruence. Qed.

Lemma attachment_url_new_row (t : RecordType) (i : Inputs) (d : datetime)
    (record_id file_url : string) :
  attachment_url (new_row t i d record_id file_url) = file_url.
Proof.
  unfold attachment_url, new_row.
  change (strftime_stamp d :: record_id :: row_fields t i ++ [file_url])
    with ((strftime_stamp d :: record_id :: row_fields t i) ++ [file_url]).
  apply last_last.
Qed.

(** C4, as the code has it: when a required field of the record type is the
    empty string, the submit handler shows the fill-in-all-required-fields
    error and does nothing else: no row is appended and no file is
    uploaded, the sheets and the drive stay as they were. *)
Theorem submit_missing_required
    (t : RecordType) (record_id : string) (i : Inputs) (w : World) :
  In "" (required_fields t i) ->
  snd (submit t record_id i w) = Ok tt /\
  trace (fst (submit t record_id i w)) = trace w ++ [StError FillRequired] /\
  sheet_values (fst (submit t record_id i w)) = sheet_values w /\
  drive_files (fst (submit t record_id i w)) = drive_files w.
Proof.
  intros Hempty; unfold submit.
  rewrite (required_missing _ _ Hempty); simpl.
  repeat split; reflexivity.
Qed.

(** C4, as stated, fails on a field that is blank but not empty: a complaint
    whose product name is a single space passes the check, and its row is
    appended. *)
Lemma submit_blank_field_accepted :
  let i := complaint_of " " None in
  In (product i) (required_fields Complaints i) /\
  blank (product i) = true /\
  snd (submit Complaints "C-1126-006" i sample_world) = Ok tt /\
  trace (fst (submit Complaints "C-1126-006" i sample_world)) =
    [AppendRow Complaints
       ["2026-11-04 16:28:00"; "C-1126-006"; " "; "Low"; "555-1234";
        "bottle cracked"; ""; ""];
     StSuccess (Registered Complaints "C-1126-006")] /\
  List.length
    (sheet_values (fst (submit Complaints "C-1126-006" i sample_world))
       Complaints) = 3.
Proof. repeat split; try reflexivity. now left. Qed.

(** C5: a form with every required field filled in and an attachment makes
    one upload and then one append; the last cell of the appended row, its
    attachment URL, is the URL the upload returned. *)
Theorem submit_with_attachment
    (t : RecordType) (record_id : string) (i : Inputs) (w : World)
    (f : UploadedFile) :
  (forall x, In x (required_fields t i) -> x <> "") ->
  uploaded_file_of t i = Some f ->
  exists (url : string) (stored : DriveFile) (row : Row),
    snd (upload_to_drive f (record_id +:+ "_" +:+ uf_name f) w) = Ok url /\
    snd (submit t record_id i w) = Ok tt /\
    trace (fst (submit t record_id i w)) =
      trace w ++ [DriveCreate stored; AppendRow t row;
                  StSuccess (Registered t record_id);
                  StMarkdown (DownloadAttachment url)] /\
    row = new_row t i (today w) record_id url /\
    attachment_url row = url /\
    sheet_values (fst (submit t record_id i w)) t = sheet_values w t ++ [row] /\
    drive_files (fst (submit t record_id i w)) = drive_files w ++ [stored].
Proof.
  intros Hreq Hfile.
  pose proof (submit_attached t record_id i w f
                (required_filled _ _ Hreq) Hfile) as Hrun.
  cbv zeta in Hrun.
  exists (file_url_of (stored_file w record_id f)),
         (stored_file w record_id f),
         (new_row t i (today w) record_id
                  (file_url_of (stored_file w record_id f))).
  rewrite Hrun; simpl.
  repeat split; try reflexivity.
  - apply attachment_url_new_row.
  - apply with_row_same.
Qed.

(** C6: a form with every required field filled in and no attachment appends
    one row to the sheet of its record type, with the empty string as
    attachment URL; nothing is uploaded and the other sheets stay as they
    were. *)
Theorem submit_without_attachment
    (t : RecordType) (record_id : string) (i : Inputs) (w : World) :
  (forall x, In x (required_fields t i) -> x <> "") ->
  uploaded_file_of t i = None ->
  exists row : Row,
    snd (submit t record_id i w) = Ok tt /\
    trace (fst (submit t record_id i w)) =
      trace w ++ [AppendRow t row; StSuccess (Registered t record_id)] /\
    row = new_row t i (today w) record_id "" /\
    attachment_url row = "" /\
    sheet_values (fst (submit t record_id i w)) t = sheet_values w t ++ [row] /\
    (forall t', t' <> t ->
       sheet_values (fst (submit t record_id i w)) t' = sheet_values w t') /\
    drive_files (fst (submit t record_id i w)) = drive_files w.
Proof.
  intros Hreq Hfile.
  pose proof (submit_plain t record_id i w
                (required_filled _ _ Hreq) Hfile) as Hrun.
  exists (new_row t i (today w) record_id "").
  rewrite Hrun; simpl.
  repeat split; try reflexivity.
  - apply attachment_url_new_row.
  - apply with_row_same.
  - intros t' Ht'; now apply with_row_other.
Qed.

(** What a form showed before the read changes nothing in the answer of the
    generator. *)
Lemma generate_record_id_after_emit (t : RecordType) (prefix : string)
    (e : Event) (w : World) :
  generate_record_id t prefix (fst (emit e w)) =
  (after_read t (fst (emit e w)), snd (generate_record_id t prefix w)).
Proof.
  apply generate_record_id_run.
  now rewrite !generate_record_id_result.
Qed.

Lemma form_tab_run (t : RecordType) (i : Inputs) (w : World) :
  form_tab t i w =
  let w1 := after_read t (fst (emit (StSubheader (RegisterNew t)) w)) in
  match snd (generate_record_id t (prefix_of t) w) with
  | Ok record_id =>
      if submit_button t i then submit t record_id i w1 else (w1, Ok tt)
  | Raise e => (w1, Raise e)
  end.
Proof.
  unfold form_tab, bind at 1.
  change (emit (StSubheader (RegisterNew t)) w)
    with (fst (emit (StSubheader (RegisterNew t)) w), @Ok unit tt).
  cbv iota. unfold bind at 1.
  rewrite generate_record_id_after_emit.
  cbv zeta.
  destruct (snd (generate_record_id t (prefix_of t) w));
    [destruct (submit_button t i)|]; reflexivity.
Qed.

(** When the generator raises, the tab stops there: nothing is validated,
    uploaded or appended. *)
Lemma form_tab_raises (t : RecordType) (i : Inputs) (w : World) (e : Exn) :
  snd (generate_record_id t (prefix_of t) w) = Raise e ->
  form_tab t i w =
    (after_read t (fst (emit (StSubheader (RegisterNew t)) w)), Raise e).
Proof. intros H; rewrite form_tab_run, H; reflexivity. Qed.

(** A tab whose button was not pressed leaves sheets and drive alone. *)
Lemma form_tab_idle (t : RecordType) (i : Inputs) (w : World) :
  submit_button t i = false ->
  sheet_values (fst (form_tab t i w)) = sheet_values w /\
  drive_files (fst (form_tab t i w)) = drive_files w.
Proof.
  intros H; rewrite form_tab_run, H; cbv zeta.
  destruct (snd (generate_record_id t (prefix_of t) w)); split; reflexivity.
Qed.

(** C7: in a run of a form's tab whose submission succeeds, the id written
    to the row is the answer of the generator on the world the run started
    in, so on the rows of the sheet as they were then; the read of the sheet
    for it is the first call to a service in the run, before any upload and
    before the one append. *)
Theorem form_tab_id_at_submit (t : RecordType) (i : Inputs) (w : World) :
  submit_button t i = true ->
  (forall x, In x (required_fields t i) -> x <> "") ->
  snd (form_tab t i w) = Ok tt ->
  exists (record_id : string) (row : Row) (uploads shown : list Event),
    snd (generate_record_id t (prefix_of t) w) = Ok record_id /\
    trace (fst (form_tab t i w)) =
      trace w ++ [StSubheader (RegisterNew t); GetAllValues t]
              ++ uploads ++ [AppendRow t row] ++ shown /\
    (forall e, In e uploads -> exists f, e = DriveCreate f) /\
    (forall e, In e shown -> exists m, e = StSuccess m \/ e = StMarkdown m) /\
    nth 1 row "" = record_id /\
    sheet_values (fst (form_tab t i w)) t = sheet_values w t ++ [row].
Proof.
  intros Hbutton Hreq.
  rewrite form_tab_run; cbv zeta.
  destruct (snd (generate_record_id t (prefix_of t) w))
    as [record_id|e]; [|discriminate].
  rewrite Hbutton; intros _.
  set (w1 := after_read t (fst (emit (StSubheader (RegisterNew t)) w))).
  apply required_filled in Hreq.
  destruct (uploaded_file_of t i) as [f|] eqn:Hfile.
  - pose proof (submit_attached t record_id i w1 f Hreq Hfile) as Hrun.
    cbv zeta in Hrun; rewrite Hrun.
    exists record_id,
      (new_row t i (today w1) record_id
               (file_url_of (stored_file w1 record_id f))),
      [DriveCreate (stored_file w1 record_id f)],
      [StSuccess (Registered t record_id);
       StMarkdown (DownloadAttachment
                     (file_url_of (stored_file w1 record_id f)))].
    repeat split.
    + simpl; now rewrite <- !app_assoc.
    + intros e [<-|[]]; eauto.
    + intros e [<-|[<-|[]]]; eauto.
    + simpl; apply with_row_same.
  - pose proof (submit_plain t record_id i w1 Hreq Hfile) as Hrun.
    rewrite Hrun.
    exists record_id, (new_row t i (today w1) record_id ""), [],
      [StSuccess (Registered t record_id)].
    repeat split.
    + simpl; now rewrite <- !app_assoc.
    + intros e [].
    + intros e [<-|[]]; eauto.
    + simpl; apply with_row_same.
Qed.

(** ** What a computation leaves alone *)

Section Keeps.

Context {X : Type} (obs : World -> X).

Lemma keeps_ret {A} (a : A) : keeps obs (ret a).
Proof. intros w; reflexivity. Qed.

Lemma keeps_raise {A} (e : Exn) : keeps obs (@raise A e).
Proof. intros w; reflexivity. Qed.

Lemma keeps_bind {A B} (m : M A) (k : A -> M B) :
  keeps obs m -> (forall a, keeps obs (k a)) -> keeps obs (bind m k).
Proof.
  intros Hm Hk w; unfold bind.
  specialize (Hm w); destruct (m w) as [w' [a|e]]; simpl in *.
  - now rewrite Hk.
  - exact Hm.
Qed.

Lemma keeps_if {A} (b : bool) (m1 m2 : M A) :
  keeps obs m1 -> keeps obs m2 -> keeps obs (if b then m1 else m2).
Proof. now destruct b. Qed.

Lemma keeps_int (s : string) : keeps obs (int s).
Proof. unfold int; destruct (Py.int s); intros w; reflexivity. Qed.

Lemma keeps_for_each {A} (l : list A) (body : A -> M unit) :
  (forall x, keeps obs (body x)) -> keeps obs (for_each l body).
Proof.
  intros Hbody; induction l as [|x r IH]; simpl.
  - apply keeps_ret.
  - apply keeps_bind; auto.
Qed.

Lemma keeps_collect {A B} (l : list A) (f : A -> M B) :
  (forall x, keeps obs (f x)) -> keeps obs (collect l f).
Proof.
  intros Hf; induction l as [|x r IH]; simpl.
  - apply keeps_ret.
  - apply keeps_bind; [auto|intros y].
    apply keeps_bind; [auto|intros ys; apply keeps_ret].
Qed.

End Keeps.

(** ** No table is rendered by the forms *)

Lemma tables_shown_snoc (events : list Event) (e : Event) :
  (forall data, e <> StTable data) ->
  tables_shown (events ++ [e]) = tables_shown events.
Proof.
  intros He; unfold tables_shown; rewrite flat_map_app; simpl.
  destruct e; try apply app_nil_r.
  now specialize (He data).
Qed.

Lemma shown_emit (e : Event) :
  (forall data, e <> StTable data) -> keeps shown (emit e).
Proof. intros He w; apply tables_shown_snoc, He. Qed.

Lemma shown_datetime_now : keeps shown datetime_now.
Proof. intros w; reflexivity. Qed.

Lemma shown_get_sheet_values (t : RecordType) :
  keeps shown (get_sheet_values t).
Proof. intros w; apply tables_shown_snoc; discriminate. Qed.

Lemma shown_append_row (t : RecordType) (row : Row) :
  keeps shown (append_row t row).
Proof. intros w; apply tables_shown_snoc; discriminate. Qed.

Lemma shown_upload_to_drive (f : UploadedFile) (filename : string) :
  keeps shown (upload_to_drive f filename).
Proof. intros w; apply tables_shown_snoc; discriminate. Qed.

Lemma shown_generate_record_id (t : RecordType) (prefix : string) :
  keeps shown (generate_record_id t prefix).
Proof.
  intros w; rewrite generate_record_id_world.
  apply tables_shown_snoc; discriminate.
Qed.

Lemma shown_submit (t : RecordType) (record_id : string) (i : Inputs) :
  keeps shown (submit t record_id i).
Proof.
  unfold submit.
  apply keeps_if; [|apply shown_emit; discriminate].
  apply keeps_bind.
  { destruct (uploaded_file_of t i);
      [apply shown_upload_to_drive|apply keeps_ret]. }
  intros file_url; apply keeps_bind; [apply shown_datetime_now|intros now].
  apply keeps_bind; [apply shown_append_row|intros _].
  apply keeps_bind; [apply shown_emit; discriminate|intros _].
  apply keeps_if; [apply shown_emit; discriminate|apply keeps_ret].
Qed.

Lemma shown_form_tab (t : RecordType) (i : Inputs) :
  keeps shown (form_tab t i).
Proof.
  unfold form_tab.
  apply keeps_bind; [apply shown_emit; discriminate|intros _].
  apply keeps_bind; [apply shown_generate_record_id|intros record_id].
  apply keeps_if; [apply shown_submit|apply keeps_ret].
Qed.

(** ** The admin view *)

Lemma access_admin_denied (password : string) (w : World) :
  password <> "admin123" ->
  access_admin password w = emit (StError IncorrectPassword) w.
Proof.
  intros Hpw; unfold access_admin.
  destruct (String.eqb_spec password "admin123"); [contradiction|reflexivity].
Qed.

(** With the right password every sheet is read and listed. *)
Lemma access_admin_granted (w : World) :
  snd (access_admin "admin123" w) = Ok tt /\
  trace (fst (access_admin "admin123" w)) =
    trace w ++ [StSuccess AccessGranted; GetAllValues Complaints;
                GetAllValues Deviation; GetAllValues ChangeControl]
            ++ listing Complaints w ++ listing Deviation w
            ++ listing ChangeControl w.
Proof.
  unfold access_admin, listing; simpl.
  unfold bind, ret, get_sheet_values, get_all_values, emit, bind; simpl.
  destruct (1 <? List.length (sheet_values w Complaints))%nat;
    destruct (1 <? List.length (sheet_values w Deviation))%nat;
    destruct (1 <? List.length (sheet_values w ChangeControl))%nat;
    simpl; rewrite <- !app_assoc; split; reflexivity.
Qed.

(** C8: an attempt with a password other than the fixed one is denied: the
    handler only shows the incorrect-password error, reading and rendering
    nothing, and the whole run of the script renders no table, whatever
    else was entered or pressed. *)
Theorem admin_wrong_password (i : Inputs) (w : World) :
  admin_password i <> "admin123" ->
  access_admin (admin_password i) w = emit (StError IncorrectPassword) w /\
  trace (fst (access_admin (admin_password i) w)) =
    trace w ++ [StError IncorrectPassword] /\
  tables_shown (trace (fst (script i w))) = tables_shown (trace w).
Proof.
  intros Hpw.
  rewrite (access_admin_denied _ _ Hpw).
  repeat split.
  revert w; change (keeps shown (script i)).
  unfold script.
  repeat (apply keeps_bind; [apply shown_form_tab|intros _]).
  unfold admin_tab.
  apply keeps_bind; [apply shown_emit; discriminate|intros _].
  apply keeps_if; [|apply keeps_ret].
  intros w; rewrite (access_admin_denied _ _ Hpw).
  apply shown_emit; discriminate.
Qed.

(** ** The statements on the sample data *)

Lemma sample_complaint_filled (name : string) (file : option UploadedFile) :
  name <> "" ->
  forall x, In x (required_fields Complaints (complaint_of name file)) ->
            x <> "".
Proof.
  intros Hname x [<-|[<-|[<-|[]]]]; [exact Hname|discriminate..].
Defined.


Lemma generate_record_id_restart_sample :
  generate_record_id ChangeControl "CC" sample_world =
    (after_read ChangeControl sample_world, Ok "CC-1126-001").
Proof.
  exact (generate_record_id_restart sample_world ChangeControl "CC"
           (le_n 2) eq_refl).
Defined.

Lemma generate_record_id_first_sample :
  generate_record_id Deviation "D" sample_world =
    (after_read Deviation sample_world, Ok "D-1126-001").
Proof.
  exact (generate_record_id_first sample_world Deviation "D" (le_n 2)).
Defined.

Lemma generate_record_id_short_row_sample :
  generate_record_id Complaints "C" short_row_world =
    (after_read Complaints short_row_world, Ok "C-1126-001").
Proof.
  exact (generate_record_id_short_row short_row_world Complaints "C"
           (le_n 2) (le_n 2)).
Defined.

Lemma generate_record_id_shape_sample :
  exists n : Z,
    (1 <= n)%Z /\
    "C-1126-006" = "C" +:+ "-" +:+ "11" +:+ "26" +:+ "-"
                   +:+ Py.zfill 3 (Py.str (Z.to_N n)) /\
    Py.int (Py.last_item (Py.split "-" "C-1126-006")) = Some n.
Proof.
  exact (generate_record_id_shape sample_world Complaints "C" "C-1126-006"
           eq_refl).
Defined.

Lemma submit_missing_required_sample :
  let i := complaint_of "" None in
  snd (submit Complaints "C-1126-006" i sample_world) = Ok tt /\
  trace (fst (submit Complaints "C-1126-006" i sample_world)) =
    trace sample_world ++ [StError FillRequired] /\
  sheet_values (fst (submit Complaints "C-1126-006" i sample_world)) =
    sheet_values sample_world /\
  drive_files (fst (submit Complaints "C-1126-006" i sample_world)) =
    drive_files sample_world.
Proof.
  exact (submit_missing_required Complaints "C-1126-006"
           (complaint_of "" None) sample_world (or_introl eq_refl)).
Defined.

Lemma submit_with_attachment_sample :
  let i := complaint_of "Aspirin" (Some sample_file) in
  exists (url : string) (stored : DriveFile) (row : Row),
    snd (upload_to_drive sample_file
           ("C-1126-006" +:+ "_" +:+ uf_name sample_file) sample_world)
      = Ok url /\
    snd (submit Complaints "C-1126-006" i sample_world) = Ok tt /\
    trace (fst (submit Complaints "C-1126-006" i sample_world)) =
      trace sample_world ++
        [DriveCreate stored; AppendRow Complaints row;
         StSuccess (Registered Complaints "C-1126-006");
         StMarkdown (DownloadAttachment url)] /\
    row = new_row Complaints i (today sample_world) "C-1126-006" url /\
    attachment_url row = url /\
    sheet_values (fst (submit Complaints "C-1126-006" i sample_world))
      Complaints = sheet_values sample_world Complaints ++ [row] /\
    drive_files (fst (submit Complaints "C-1126-006" i sample_world)) =
      drive_files sample_world ++ [stored].
Proof.
  exact (submit_with_attachment Complaints "C-1126-006"
           (complaint_of "Aspirin" (Some sample_file)) sample_world
           sample_file
           (sample_complaint_filled "Aspirin" (Some sample_file)
              ltac:(discriminate))
           eq_refl).
Defined.

Lemma submit_without_attachment_sample :
  let i := complaint_of "Aspirin" None in
  exists row : Row,
    snd (submit Complaints "C-1126-006" i sample_world) = Ok tt /\
    trace (fst (submit Complaints "C-1126-006" i sample_world)) =
      trace sample_world ++
        [AppendRow Complaints row;
         StSuccess (Registered Complaints "C-1126-006")] /\
    row = new_row Complaints i (today sample_world) "C-1126-006" "" /\
    attachment_url row = "" /\
    sheet_values (fst (submit Complaints "C-1126-006" i sample_world))
      Complaints = sheet_values sample_world Complaints ++ [row] /\
    (forall t', t' <> Complaints ->
       sheet_values (fst (submit Complaints "C-1126-006" i sample_world)) t'
       = sheet_values sample_world t') /\
    drive_files (fst (submit Complaints "C-1126-006" i sample_world)) =
      drive_files sample_world.
Proof.
  exact (submit_without_attachment Complaints "C-1126-006"
           (complaint_of "Aspirin" None) sample_world
           (sample_complaint_filled "Aspirin" None ltac:(discriminate))
           eq_refl).
Defined.

Lemma form_tab_id_at_submit_sample :
  let i := complaint_of "Aspirin" None in
  exists (record_id : string) (row : Row) (uploads shown : list Event),
    snd (generate_record_id Complaints (prefix_of Complaints) sample_world)
      = Ok record_id /\
    trace (fst (form_tab Complaints i sample_world)) =
      trace sample_world ++
        [StSubheader (RegisterNew Complaints); GetAllValues Complaints]
        ++ uploads ++ [AppendRow Complaints row] ++ shown /\
    (forall e, In e uploads -> exists f, e = DriveCreate f) /\
    (forall e, In e shown -> exists m, e = StSuccess m \/ e = StMarkdown m) /\
    nth 1 row "" = record_id /\
    sheet_values (fst (form_tab Complaints i sample_world)) Complaints =
      sheet_values sample_world Complaints ++ [row].
Proof.
  exact (form_tab_id_at_submit Complaints (complaint_of "Aspirin" None)
           sample_world eq_refl
           (sample_complaint_filled "Aspirin" None ltac:(discriminate))
           eq_refl).
Defined.

Lemma admin_wrong_password_sample :
  let i := admin_attempt "letmein" in
  access_admin (admin_password i) sample_world =
    emit (StError IncorrectPassword) sample_world /\
  trace (fst (access_admin (admin_password i) sample_world)) =
    trace sample_world ++ [StError IncorrectPassword] /\
  tables_shown (trace (fst (script i sample_world))) =
    tables_shown (trace sample_world).
Proof.
  exact (admin_wrong_password (admin_attempt "letmein") sample_world
           ltac:(discriminate)).
Defined.


(** * Further properties *)

(** ** More facts about strings *)

Module StringFacts.

Lemma prefix_refl_app (x y : string) : String.prefix x (x +:+ y) = true.
Proof.
  induction x as [|c x IH]; simpl; [now destruct y|].
  destruct (ascii_dec c c); [exact IH|congruence].
Qed.

Lemma prefix_app_same (p a b : string) :
  String.prefix (p +:+ a) (p +:+ b) = String.prefix a b.
Proof.
  induction p as [|c p IH]; simpl; [reflexivity|].
  destruct (ascii_dec c c); [exact IH|congruence].
Qed.

(** Two texts of one length in front: a prefix test compares them first. *)
Lemma prefix_same_length (a b x y : string) :
  String.length a = String.length b ->
  String.prefix (a +:+ x) (b +:+ y) = true ->
  a = b /\ String.prefix x y = true.
Proof.
  revert b; induction a as [|c a IH]; intros [|d b] Hlen; simpl in *;
    try discriminate.
  - auto.
  - destruct (ascii_dec c d) as [->|]; [|discriminate].
    intros H; destruct (IH b) as [-> Hxy]; auto.
Qed.

Lemma length_append (a b : string) :
  String.length (a +:+ b) = String.length a + String.length b.
Proof. induction a as [|c a IH]; simpl; [reflexivity|now rewrite IH]. Qed.

Lemma append_cancel_r (a b s : string) : a +:+ s = b +:+ s -> a = b.
Proof.
  revert b; induction a as [|c a IH]; intros [|d b] H; simpl in H.
  - reflexivity.
  - apply (f_equal String.length) in H; simpl in H.
    rewrite length_append in H; lia.
  - apply (f_equal String.length) in H; simpl in H.
    rewrite length_append in H; lia.
  - injection H as -> H; f_equal; now apply IH.
Qed.

(** What [zfill] wrote tells the number. *)
Lemma zfill_inj (width width' : nat) (a b : N) :
  Py.within_digits (Py.zfill width (Py.str a)) = true ->
  Py.zfill width (Py.str a) = Py.zfill width' (Py.str b) -> a = b.
Proof.
  intros Ha H; pose proof Ha as Hb; rewrite H in Hb.
  apply (f_equal Py.int) in H.
  rewrite !PyFacts.int_zfill in H by assumption; injection H; lia.
Qed.

Lemma two_digits_below_100 :
  forallb (fun k => Nat.eqb (String.length (Py.zfill 2 (Py.str (N.of_nat k)))) 2)
          (seq 0 100) = true.
Proof. vm_compute; reflexivity. Qed.

(** Below one hundred, [zfill 2] writes exactly two characters. *)
Lemma zfill2_length (n : N) :
  (n < 100)%N -> String.length (Py.zfill 2 (Py.str n)) = 2.
Proof.
  intros Hn; pose proof two_digits_below_100 as H.
  rewrite forallb_forall in H.
  specialize (H (N.to_nat n)); rewrite N2Nat.id in H.
  apply Nat.eqb_eq, H, in_seq; lia.
Qed.

Lemma within_two_digits (n : N) :
  (n < 100)%N -> Py.within_digits (Py.zfill 2 (Py.str n)) = true.
Proof.
  intros Hn; unfold Py.within_digits; now rewrite zfill2_length.
Qed.

End StringFacts.

(** ** The generator on ids of its own making *)

Lemma generate_record_id_serial (w : World) (sheet : RecordType)
    (prefix s : string) :
  snd (generate_record_id sheet prefix w) = Ok s ->
  exists n : N,
    (1 <= n)%N /\
    Py.within_digits (Py.str n) = true /\
    s = record_id prefix (today w) (Py.zfill 3 (Py.str n)).
Proof.
  intros Hrun.
  destruct (generate_record_id_returns _ _ _ _ Hrun) as [z [Hz [Hdigits ->]]].
  exists (Z.to_N z); repeat split; [lia|exact Hdigits].
Qed.

Lemma own_id_piece (prefix : string) (d : datetime) (n : N) :
  Py.within_digits (Py.str n) = true ->
  Py.int (Py.last_item
            (Py.split "-" (record_id prefix d (Py.zfill 3 (Py.str n)))))
  = Some (Z.of_N n).
Proof.
  intros Hdigits.
  rewrite <- (N2Z.id n) at 1; apply serial_read_back; [lia|].
  now rewrite N2Z.id.
Qed.

Lemma own_id_matches (prefix serial : string) (d1 d2 : datetime) :
  strftime_m d2 = strftime_m d1 ->
  strftime_y d2 = strftime_y d1 ->
  Py.startswith (record_id prefix d1 serial) (id_segment prefix d2) = true.
Proof.
  intros Hm Hy; unfold Py.startswith, id_segment; rewrite Hm, Hy.
  rewrite record_id_segment; apply StringFacts.prefix_refl_app.
Qed.

Lemma prefix_exact_length (a b y : string) :
  String.length a = String.length b ->
  String.prefix a (b +:+ y) = true -> a = b.
Proof.
  revert b; induction a as [|c a IH]; intros [|d b] Hlen; simpl in *;
    try discriminate; [reflexivity|].
  destruct (ascii_dec c d) as [->|]; [|discriminate].
  intros H; f_equal; apply IH; [lia|exact H].
Qed.

Lemma own_id_other_month (prefix serial : string) (d1 d2 : datetime) :
  (dt_month d1 < 100)%N -> (dt_month d2 < 100)%N ->
  dt_month d1 <> dt_month d2 \/
  (dt_year d1 mod 100 <> dt_year d2 mod 100)%N ->
  Py.startswith (record_id prefix d1 serial) (id_segment prefix d2) = false.
Proof.
  intros H1 H2 Hdiff.
  destruct (Py.startswith _ _) eqn:E; [exfalso|reflexivity].
  unfold Py.startswith, id_segment, record_id in E.
  rewrite StringFacts.prefix_app_same in E; simpl in E.
  apply StringFacts.prefix_same_length in E as [Hm Hy].
  2:{ unfold strftime_m; now rewrite !StringFacts.zfill2_length. }
  apply prefix_exact_length in Hy.
  2:{ unfold strftime_y;
      rewrite !StringFacts.zfill2_length; auto using N.mod_upper_bound;
      apply N.mod_upper_bound; discriminate. }
  apply StringFacts.zfill_inj in Hm, Hy;
    try (apply StringFacts.within_two_digits; auto;
         apply N.mod_upper_bound; discriminate).
  destruct Hdiff; congruence.
Qed.

(** What the generator answers when the last id is one of its own for the
    same prefix, month and year: the next serial, unless that one is too
    long to be written. *)
Lemma generate_after_own_id (w : World) (sheet : RecordType)
    (prefix : string) (d : datetime) (n : N) :
  2 <= List.length (sheet_values w sheet) ->
  last_id_of (sheet_values w sheet) =
    record_id prefix d (Py.zfill 3 (Py.str n)) ->
  Py.within_digits (Py.str n) = true ->
  strftime_m (today w) = strftime_m d ->
  strftime_y (today w) = strftime_y d ->
  snd (generate_record_id sheet prefix w) =
    if Py.within_digits (Py.str (n + 1))
    then Ok (record_id prefix (today w) (Py.zfill 3 (Py.str (n + 1))))
    else Raise ValueError.
Proof.
  intros Hrows Hid Hdigits Hm Hy.
  rewrite generate_record_id_result, (data_rows_ltb _ Hrows), Hid.
  rewrite (own_id_matches _ _ _ _ Hm Hy), (own_id_piece _ _ _ Hdigits).
  rewrite PyFacts.format_03d_nonneg by lia.
  replace (Z.to_N (Z.of_N n + 1)) with (n + 1)%N by lia.
  destruct (Py.within_digits (Py.str (n + 1))); reflexivity.
Qed.

(** X1: the generator only reads.  Whether it returns or raises, every
    sheet and the drive are as before, the clock was looked at once, and the
    one new event is the read of the sheet it was asked about. *)
Theorem generate_record_id_read_only
    (w : World) (sheet : RecordType) (prefix : string) :
  sheet_values (fst (generate_record_id sheet prefix w)) = sheet_values w /\
  drive_files (fst (generate_record_id sheet prefix w)) = drive_files w /\
  clock_reads (fst (generate_record_id sheet prefix w)) = S (clock_reads w) /\
  trace (fst (generate_record_id sheet prefix w)) =
    trace w ++ [GetAllValues sheet].
Proof.
  rewrite generate_record_id_world; repeat split; reflexivity.
Qed.

(** X2: when the generator raises.  It raises exactly when there is a data
    row whose id cell starts with the current prefix-month-year text and
    either [int] refuses the last dash-separated piece of that cell (no
    number, or more than 4300 digits), or [int] reads it as N and N+1 has
    more than 4300 digits, so that it cannot be written. *)
Theorem generate_record_id_raises_iff
    (w : World) (sheet : RecordType) (prefix : string) :
  snd (generate_record_id sheet prefix w) = Raise ValueError <->
  2 <= List.length (sheet_values w sheet) /\
  Py.startswith (last_id_of (sheet_values w sheet))
                (id_segment prefix (today w)) = true /\
  (Py.int (Py.last_item (Py.split "-" (last_id_of (sheet_values w sheet))))
     = None \/
   exists N : Z,
     Py.int (Py.last_item (Py.split "-" (last_id_of (sheet_values w sheet))))
       = Some N /\
     Py.within_digits (Py.str (Z.to_N (N + 1))) = false).
Proof.
  rewrite generate_record_id_result.
  destruct (Nat.ltb_spec (List.length (sheet_values w sheet)) 2) as [Hlt|Hge].
  { split; [discriminate|intros [H _]; lia]. }
  destruct (Py.startswith _ _).
  2:{ split; [discriminate|intros [_ [H _]]; discriminate]. }
  destruct (Py.int _) as [N|] eqn:Hint.
  - assert (HN : (0 <= N)%Z).
    { eapply PyFacts.int_nonneg; [apply PyFacts.last_item_free|exact Hint]. }
    rewrite PyFacts.format_03d_nonneg by lia.
    destruct (Py.within_digits _) eqn:Hdigits.
    + split; [discriminate|].
      intros [_ [_ [H|[N' [[= <-] H]]]]]; congruence.
    + split; [|reflexivity].
      intros _; repeat split; auto; right; exists N; auto.
  - split; auto.
Qed.

(** X3: an id that stops right after a dash, while starting with the
    current prefix-month-year text, makes the generator raise: the piece
    after the last dash is empty and [int] refuses it. *)
Theorem generate_record_id_trailing_dash
    (w : World) (sheet : RecordType) (prefix x : string) :
  2 <= List.length (sheet_values w sheet) ->
  last_id_of (sheet_values w sheet) = x +:+ "-" ->
  Py.startswith (x +:+ "-") (id_segment prefix (today w)) = true ->
  snd (generate_record_id sheet prefix w) = Raise ValueError.
Proof.
  intros Hrows Hid Hstart.
  rewrite generate_record_id_result, (data_rows_ltb _ Hrows), Hid, Hstart.
  now rewrite PyFacts.last_item_app.
Qed.

(** X4: the serial starts again in another month.  When the last id is one
    the generator wrote for this prefix at a date whose month or two-digit
    year is not the current one, the answer is serial 001 for the current
    month and year.  (Months are below 100, as every month is.) *)
Theorem generate_record_id_new_month
    (w : World) (sheet : RecordType) (prefix serial : string)
    (d : datetime) :
  2 <= List.length (sheet_values w sheet) ->
  last_id_of (sheet_values w sheet) = record_id prefix d serial ->
  (dt_month d < 100)%N -> (dt_month (today w) < 100)%N ->
  dt_month d <> dt_month (today w) \/
  (dt_year d mod 100 <> dt_year (today w) mod 100)%N ->
  snd (generate_record_id sheet prefix w) =
    Ok (record_id prefix (today w) "001").
Proof.
  intros Hrows Hid Hd Hnow Hdiff.
  rewrite generate_record_id_result, (data_rows_ltb _ Hrows), Hid.
  now rewrite own_id_other_month.
Qed.

Lemma generate_record_id_trailing_dash_sample :
  snd (generate_record_id Complaints "C" trailing_dash_world)
  = Raise ValueError.
Proof.
  exact (generate_record_id_trailing_dash trailing_dash_world Complaints "C"
           "C-1126" (le_n 2) eq_refl eq_refl).
Defined.

Lemma generate_record_id_new_month_sample :
  let w := sample_world_at (fun k => midnight (S k)) in
  snd (generate_record_id Complaints "C" w) =
    Ok (record_id "C" (today w) "001").
Proof.
  refine (generate_record_id_new_month
            (sample_world_at (fun k => midnight (S k))) Complaints
            "C" "005" sample_now (le_n 2) _ _ _ (or_introl _)).
  - vm_compute; reflexivity.
  - vm_compute; reflexivity.
  - vm_compute; reflexivity.
  - vm_compute; discriminate.
Defined.

(** ** A submission and the next id *)

Lemma form_tab_ok_generator (t : RecordType) (i : Inputs) (w : World) :
  snd (form_tab t i w) = Ok tt ->
  exists record_id, snd (generate_record_id t (prefix_of t) w) = Ok record_id.
Proof.
  rewrite form_tab_run; cbv zeta.
  destruct (snd (generate_record_id t (prefix_of t) w)) as [record_id|e];
    [eauto|discriminate].
Qed.

(** The sheets after a successful submission: the row written holds the
    time of the second look at the clock and the id the generator gave. *)
Lemma form_tab_success (t : RecordType) (i : Inputs) (w : World)
    (record_id : string) :
  submit_button t i = true ->
  (forall x, In x (required_fields t i) -> x <> "") ->
  snd (generate_record_id t (prefix_of t) w) = Ok record_id ->
  exists file_url,
    sheet_values (fst (form_tab t i w)) =
      with_row t (new_row t i (clock w (S (clock_reads w))) record_id file_url)
               (sheet_values w).
Proof.
  intros Hbutton Hreq Hgen.
  rewrite form_tab_run, Hgen, Hbutton; cbv zeta.
  set (w1 := after_read t (fst (emit (StSubheader (RegisterNew t)) w))).
  apply required_filled in Hreq.
  destruct (uploaded_file_of t i) as [f|] eqn:Hfile.
  - pose proof (submit_attached t record_id i w1 f Hreq Hfile) as Hrun.
    cbv zeta in Hrun; rewrite Hrun; eexists; reflexivity.
  - rewrite (submit_plain t record_id i w1 Hreq Hfile).
    eexists; reflexivity.
Qed.

Lemma last_id_of_new_row (values : Values) (t : RecordType) (i : Inputs)
    (d : datetime) (record_id file_url : string) :
  last_id_of (values ++ [new_row t i d record_id file_url]) = record_id.
Proof. unfold last_id_of; rewrite last_last; reflexivity. Qed.

(** X5: serials follow one another.  After a successful submission to a
    sheet that had at least its header row, the next id generated for that
    sheet in the same month and year carries the serial of the submitted
    record plus one; only when that serial would have more than 4300 digits
    the generator raises instead. *)
Theorem next_id_follows_submission
    (t : RecordType) (i : Inputs) (w w2 : World) :
  submit_button t i = true ->
  (forall x, In x (required_fields t i) -> x <> "") ->
  snd (form_tab t i w) = Ok tt ->
  sheet_values w t <> [] ->
  sheet_values w2 t = sheet_values (fst (form_tab t i w)) t ->
  strftime_m (today w2) = strftime_m (today w) ->
  strftime_y (today w2) = strftime_y (today w) ->
  exists n : N,
    (1 <= n)%N /\
    snd (generate_record_id t (prefix_of t) w) =
      Ok (record_id (prefix_of t) (today w) (Py.zfill 3 (Py.str n))) /\
    snd (generate_record_id t (prefix_of t) w2) =
      if Py.within_digits (Py.str (n + 1))
      then Ok (record_id (prefix_of t) (today w2)
                         (Py.zfill 3 (Py.str (n + 1))))
      else Raise ValueError.
Proof.
  intros Hbutton Hreq Hok Hheader Hsheet Hm Hy.
  destruct (form_tab_ok_generator _ _ _ Hok) as [id Hgen].
  destruct (generate_record_id_serial _ _ _ _ Hgen) as [n [Hn [Hdigits ->]]].
  destruct (form_tab_success _ _ _ _ Hbutton Hreq Hgen) as [url Hafter].
  exists n; repeat split; [exact Hn|exact Hgen|].
  apply (generate_after_own_id w2 t (prefix_of t) (today w) n);
    try assumption.
  - rewrite Hsheet, Hafter, with_row_same, length_app; simpl.
    destruct (sheet_values w t); [congruence|simpl; lia].
  - rewrite Hsheet, Hafter, with_row_same; apply last_id_of_new_row.
Qed.

(** X6: on a sheet without any row, not even a header, the serial does not
    advance: the first submission gets serial 001 and becomes the only
    row, and the id generated after it is serial 001 again. *)
Theorem second_id_on_empty_sheet
    (t : RecordType) (i : Inputs) (w w2 : World) :
  sheet_values w t = [] ->
  submit_button t i = true ->
  (forall x, In x (required_fields t i) -> x <> "") ->
  sheet_values w2 t = sheet_values (fst (form_tab t i w)) t ->
  snd (form_tab t i w) = Ok tt /\
  snd (generate_record_id t (prefix_of t) w) =
    Ok (record_id (prefix_of t) (today w) "001") /\
  List.length (sheet_values w2 t) = 1 /\
  snd (generate_record_id t (prefix_of t) w2) =
    Ok (record_id (prefix_of t) (today w2) "001").
Proof.
  intros Hempty Hbutton Hreq Hsheet.
  assert (Hgen : snd (generate_record_id t (prefix_of t) w) =
                 Ok (record_id (prefix_of t) (today w) "001")).
  { now rewrite generate_record_id_result, Hempty. }
  destruct (form_tab_success _ _ _ _ Hbutton Hreq Hgen) as [url Hafter].
  assert (Hone : List.length (sheet_values w2 t) = 1).
  { now rewrite Hsheet, Hafter, with_row_same, Hempty. }
  repeat split; [|exact Hgen|exact Hone|].
  - rewrite form_tab_run, Hgen, Hbutton; cbv zeta.
    apply required_filled in Hreq.
    destruct (uploaded_file_of t i) as [f|] eqn:Hfile.
    + pose proof (submit_attached t
                    (record_id (prefix_of t) (today w) "001") i
                    (after_read t (fst (emit (StSubheader (RegisterNew t)) w)))
                    f Hreq Hfile) as Hrun.
      cbv zeta in Hrun; now rewrite Hrun.
    + now rewrite (submit_plain t
                     (record_id (prefix_of t) (today w) "001") i
                     (after_read t
                        (fst (emit (StSubheader (RegisterNew t)) w)))
                     Hreq Hfile).
  - now rewrite generate_record_id_result, Hone.
Qed.

(** X7: [int] always reads an id the forms wrote.  After a successful
    submission with serial n, generating an id for that sheet, for any
    prefix and whatever the clock shows then, can raise only because n+1
    has more than 4300 digits and cannot be written: when n+1 is within the
    limit it returns. *)
Theorem generation_after_submission_returns
    (t : RecordType) (i : Inputs) (w w2 : World) (prefix : string) :
  submit_button t i = true ->
  (forall x, In x (required_fields t i) -> x <> "") ->
  snd (form_tab t i w) = Ok tt ->
  sheet_values w2 t = sheet_values (fst (form_tab t i w)) t ->
  exists n : N,
    (1 <= n)%N /\
    snd (generate_record_id t (prefix_of t) w) =
      Ok (record_id (prefix_of t) (today w) (Py.zfill 3 (Py.str n))) /\
    Py.int (Py.last_item (Py.split "-" (last_id_of (sheet_values w2 t))))
      = Some (Z.of_N n) /\
    (Py.within_digits (Py.str (n + 1)) = true ->
     exists s, snd (generate_record_id t prefix w2) = Ok s).
Proof.
  intros Hbutton Hreq Hok Hsheet.
  destruct (form_tab_ok_generator _ _ _ Hok) as [id Hgen].
  destruct (generate_record_id_serial _ _ _ _ Hgen) as [n [Hn [Hdigits ->]]].
  destruct (form_tab_success _ _ _ _ Hbutton Hreq Hgen) as [url Hafter].
  exists n; split; [exact Hn|]; split; [exact Hgen|].
  rewrite generate_record_id_result, Hsheet, Hafter, with_row_same.
  rewrite last_id_of_new_row, (own_id_piece _ _ _ Hdigits).
  split; [reflexivity|intros Hnext].
  destruct (_ <? 2)%nat; [eauto|].
  destruct (Py.startswith _ _); [|eauto].
  rewrite PyFacts.format_03d_nonneg by lia.
  replace (Z.to_N (Z.of_N n + 1)) with (n + 1)%N by lia.
  rewrite Hnext; eauto.
Qed.

(** X8: id and time stamp come from two looks at the clock.  In a
    successful submission the id is built from the first look and the first
    cell of the row from the second, so the two can name different months. *)
Theorem stamp_from_second_look (t : RecordType) (i : Inputs) (w : World) :
  submit_button t i = true ->
  (forall x, In x (required_fields t i) -> x <> "") ->
  snd (form_tab t i w) = Ok tt ->
  exists (n : N) (file_url : string),
    List.last (sheet_values (fst (form_tab t i w)) t) [] =
      strftime_stamp (clock w (S (clock_reads w)))
      :: record_id (prefix_of t) (clock w (clock_reads w))
                   (Py.zfill 3 (Py.str n))
      :: row_fields t i ++ [file_url].
Proof.
  intros Hbutton Hreq Hok.
  destruct (form_tab_ok_generator _ _ _ Hok) as [id Hgen].
  destruct (generate_record_id_serial _ _ _ _ Hgen) as [n [Hn [_ ->]]].
  destruct (form_tab_success _ _ _ _ Hbutton Hreq Hgen) as [url Hafter].
  exists n, url.
  rewrite Hafter, with_row_same; apply last_last.
Qed.

Lemma next_id_follows_submission_sample :
  let i := complaint_of "Aspirin" None in
  let w2 := fst (form_tab Complaints i sample_world) in
  exists n : N,
    (1 <= n)%N /\
    snd (generate_record_id Complaints (prefix_of Complaints) sample_world) =
      Ok (record_id (prefix_of Complaints) (today sample_world)
                    (Py.zfill 3 (Py.str n))) /\
    snd (generate_record_id Complaints (prefix_of Complaints) w2) =
      if Py.within_digits (Py.str (n + 1))
      then Ok (record_id (prefix_of Complaints) (today w2)
                         (Py.zfill 3 (Py.str (n + 1))))
      else Raise ValueError.
Proof.
  intros i w2.
  refine (next_id_follows_submission Complaints i sample_world w2
            eq_refl (sample_complaint_filled "Aspirin" None _) _ _ eq_refl
            _ _).
  - discriminate.
  - vm_compute; reflexivity.
  - vm_compute; discriminate.
  - vm_compute; reflexivity.
  - vm_compute; reflexivity.
Defined.

Lemma second_id_on_empty_sheet_sample :
  let i := complaint_of "Aspirin" None in
  let w2 := fst (form_tab Complaints i empty_sheets_world) in
  snd (form_tab Complaints i empty_sheets_world) = Ok tt /\
  snd (generate_record_id Complaints (prefix_of Complaints)
         empty_sheets_world) =
    Ok (record_id (prefix_of Complaints) (today empty_sheets_world) "001") /\
  List.length (sheet_values w2 Complaints) = 1 /\
  snd (generate_record_id Complaints (prefix_of Complaints) w2) =
    Ok (record_id (prefix_of Complaints) (today w2) "001").
Proof.
  intros i w2.
  refine (second_id_on_empty_sheet Complaints i empty_sheets_world w2
            eq_refl eq_refl (sample_complaint_filled "Aspirin" None _)
            eq_refl).
  discriminate.
Defined.

Lemma generation_after_submission_returns_sample :
  let i := complaint_of "Aspirin" None in
  let w2 := fst (form_tab Complaints i sample_world) in
  exists n : N,
    (1 <= n)%N /\
    snd (generate_record_id Complaints (prefix_of Complaints) sample_world) =
      Ok (record_id (prefix_of Complaints) (today sample_world)
                    (Py.zfill 3 (Py.str n))) /\
    Py.int (Py.last_item
              (Py.split "-" (last_id_of (sheet_values w2 Complaints))))
      = Some (Z.of_N n) /\
    (Py.within_digits (Py.str (n + 1)) = true ->
     exists s, snd (generate_record_id Complaints "CC" w2) = Ok s).
Proof.
  intros i w2.
  refine (generation_after_submission_returns Complaints i sample_world w2
            "CC" eq_refl (sample_complaint_filled "Aspirin" None _) _
            eq_refl).
  - discriminate.
  - vm_compute; reflexivity.
Defined.

Lemma stamp_from_second_look_sample :
  let i := complaint_of "Aspirin" None in
  let w := sample_world_at midnight in
  exists (n : N) (file_url : string),
    List.last (sheet_values (fst (form_tab Complaints i w)) Complaints) [] =
      strftime_stamp (mk_datetime 2026 12 1 0 0 0)
      :: record_id "C" (mk_datetime 2026 11 30 23 59 59)
                   (Py.zfill 3 (Py.str n))
      :: row_fields Complaints i ++ [file_url].
Proof.
  intros i w.
  refine (stamp_from_second_look Complaints i w eq_refl
            (sample_complaint_filled "Aspirin" None _) _).
  - discriminate.
  - vm_compute; reflexivity.
Defined.

(** ** A whole run of the script *)

Lemma steps_bind {A B} (R1 R2 R3 : World -> World -> Prop)
    (m : M A) (k : A -> M B) :
  steps R1 m ->
  (forall a, steps R2 (k a)) ->
  (forall x y, R1 x y -> R3 x y) ->
  (forall x y z, R1 x y -> R2 y z -> R3 x z) ->
  steps R3 (bind m k).
Proof.
  intros Hm Hk Hstop Hgo w; unfold bind.
  specialize (Hm w); destruct (m w) as [w' [a|e]]; simpl in *.
  - eapply Hgo; [exact Hm|apply Hk].
  - apply Hstop, Hm.
Qed.

(** The admin tab only reads and renders: whatever does not depend on the
    trace is kept. *)
Lemma admin_tab_keeps {X} (obs : World -> X) (i : Inputs) :
  (forall e, keeps obs (emit e)) -> keeps obs (admin_tab i).
Proof.
  intros Hemit.
  assert (Hread : forall t, keeps obs (get_sheet_values t)).
  { intros t; unfold get_sheet_values, get_all_values.
    apply keeps_bind; [apply Hemit|intros _ w; reflexivity]. }
  unfold admin_tab.
  apply keeps_bind; [apply Hemit|intros _].
  apply keeps_if; [|apply keeps_ret].
  unfold access_admin.
  apply keeps_if; [|apply Hemit].
  apply keeps_bind; [apply Hemit|intros _].
  apply keeps_bind.
  - apply keeps_collect; intros t.
    apply keeps_bind; [apply Hread|intros data; apply keeps_ret].
  - intros sheet_data; apply keeps_for_each; intros [name data].
    apply keeps_bind; [apply Hemit|intros _].
    apply keeps_if; apply Hemit.
Qed.

Lemma submit_appends (t : RecordType) (record_id : string) (i : Inputs) :
  steps (appends_rows t true) (submit t record_id i).
Proof.
  intros w; unfold appends_rows.
  destruct (forallb Py.truthy (required_fields t i)) eqn:Hreq.
  - destruct (uploaded_file_of t i) as [f|] eqn:Hfile.
    + pose proof (submit_attached t record_id i w f Hreq Hfile) as Hrun.
      cbv zeta in Hrun; rewrite Hrun; simpl.
      eexists [_]; repeat split; [simpl; lia|discriminate|].
      apply with_row_same.
    + rewrite (submit_plain t record_id i w Hreq Hfile); simpl.
      eexists [_]; repeat split; [simpl; lia|discriminate|].
      apply with_row_same.
  - unfold submit; rewrite Hreq; simpl.
    exists []; repeat split; [simpl; lia|now rewrite app_nil_r].
Qed.

Lemma submit_other (t t' : RecordType) (record_id : string) (i : Inputs) :
  t' <> t -> keeps (fun w => sheet_values w t') (submit t record_id i).
Proof.
  intros Hne w.
  destruct (forallb Py.truthy (required_fields t i)) eqn:Hreq.
  - destruct (uploaded_file_of t i) as [f|] eqn:Hfile.
    + pose proof (submit_attached t record_id i w f Hreq Hfile) as Hrun.
      cbv zeta in Hrun; rewrite Hrun; simpl; now apply with_row_other.
    + rewrite (submit_plain t record_id i w Hreq Hfile); simpl.
      now apply with_row_other.
  - unfold submit; rewrite Hreq; reflexivity.
Qed.

Lemma form_tab_appends (t : RecordType) (i : Inputs) :
  steps (appends_rows t (submit_button t i)) (form_tab t i).
Proof.
  intros w; rewrite form_tab_run; cbv zeta.
  set (w1 := after_read t (fst (emit (StSubheader (RegisterNew t)) w))).
  assert (Hidle : forall b, appends_rows t b w w1).
  { intros b; exists []; repeat split; [simpl; lia|].
    now rewrite app_nil_r. }
  destruct (snd (generate_record_id t (prefix_of t) w)) as [id|e];
    [|apply Hidle].
  destruct (submit_button t i); [|apply Hidle].
  apply (submit_appends t id i w1).
Qed.

Lemma form_tab_other (t t' : RecordType) (i : Inputs) :
  t' <> t -> keeps (fun w => sheet_values w t') (form_tab t i).
Proof.
  intros Hne w; rewrite form_tab_run; cbv zeta.
  destruct (snd (generate_record_id t (prefix_of t) w)) as [id|e];
    [|reflexivity].
  destruct (submit_button t i); [|reflexivity].
  now rewrite (submit_other t t' id i Hne).
Qed.

Lemma appends_then_keeps (t : RecordType) (b : bool) (x y z : World) :
  appends_rows t b x y -> sheet_values z t = sheet_values y t ->
  appends_rows t b x z.
Proof.
  intros [rows [Hlen [Hidle Hy]]] Hz.
  exists rows; repeat split; auto; congruence.
Qed.

Lemma keeps_then_appends (t : RecordType) (b : bool) (x y z : World) :
  sheet_values y t = sheet_values x t -> appends_rows t b y z ->
  appends_rows t b x z.
Proof.
  intros Hy [rows [Hlen [Hidle Hz]]].
  exists rows; repeat split; auto; congruence.
Qed.

Lemma keeps_appends (t : RecordType) (b : bool) (x y : World) :
  sheet_values y t = sheet_values x t -> appends_rows t b x y.
Proof.
  intros H; exists []; repeat split; [simpl; lia|].
  now rewrite app_nil_r.
Qed.

(** X9: a run of the script only ever appends.  Whatever was entered and
    pressed, and whether the run ends normally or in an exception, every
    sheet keeps its rows in place and gets at most one new row at the end,
    and none at all when the submit button of its form was not pressed. *)
Theorem script_appends (i : Inputs) (w : World) (t : RecordType) :
  exists rows : list Row,
    List.length rows <= 1 /\
    (submit_button t i = false -> rows = []) /\
    sheet_values (fst (script i w)) t = sheet_values w t ++ rows.
Proof.
  change (appends_rows t (submit_button t i) w (fst (script i w))).
  revert w; change (steps (appends_rows t (submit_button t i)) (script i)).
  assert (Hadmin : keeps (fun w => sheet_values w t) (admin_tab i)).
  { apply admin_tab_keeps; intros e w; reflexivity. }
  assert (Hown : forall t', t' = t ->
            steps (appends_rows t (submit_button t i)) (form_tab t' i)).
  { intros t' ->; apply form_tab_appends. }
  assert (Hother : forall t', t <> t' ->
            steps (fun x y => sheet_values y t = sheet_values x t)
                  (form_tab t' i)).
  { intros t' Hne; apply (form_tab_other t' t i Hne). }
  assert (Hrest : forall (m : M unit) (k : unit -> M unit),
            keeps (fun w => sheet_values w t) m ->
            (forall a, keeps (fun w => sheet_values w t) (k a)) ->
            steps (fun x y => sheet_values y t = sheet_values x t)
                  (bind m k)).
  { intros m k Hm Hk; apply (keeps_bind (fun w => sheet_values w t)); auto. }
  assert (Hfirst : forall (m : M unit) (k : unit -> M unit),
            steps (appends_rows t (submit_button t i)) m ->
            (forall a, steps (fun x y => sheet_values y t = sheet_values x t)
                             (k a)) ->
            steps (appends_rows t (submit_button t i)) (bind m k)).
  { intros m k Hm Hk.
    apply (steps_bind (appends_rows t (submit_button t i))
             (fun x y => sheet_values y t = sheet_values x t)); auto.
    apply appends_then_keeps. }
  assert (Hlater : forall (m : M unit) (k : unit -> M unit),
            steps (fun x y => sheet_values y t = sheet_values x t) m ->
            (forall a, steps (appends_rows t (submit_button t i)) (k a)) ->
            steps (appends_rows t (submit_button t i)) (bind m k)).
  { intros m k Hm Hk.
    apply (steps_bind (fun x y => sheet_values y t = sheet_values x t)
             (appends_rows t (submit_button t i))); auto.
    - apply keeps_appends.
    - apply keeps_then_appends. }
  unfold script.
  destruct t.
  - apply Hfirst; [apply Hown; reflexivity|intros _].
    apply Hrest; [apply Hother; discriminate|intros _].
    apply Hrest; [apply Hother; discriminate|intros _; exact Hadmin].
  - apply Hlater; [apply Hother; discriminate|intros _].
    apply Hfirst; [apply Hown; reflexivity|intros _].
    apply Hrest; [apply Hother; discriminate|intros _; exact Hadmin].
  - apply Hlater; [apply Hother; discriminate|intros _].
    apply Hlater; [apply Hother; discriminate|intros _].
    apply Hfirst; [apply Hown; reflexivity|intros _; exact Hadmin].
Qed.

Lemma form_tab_drive (t : RecordType) (i : Inputs) :
  submit_button t i = false \/ uploaded_file_of t i = None ->
  keeps drive_files (form_tab t i).
Proof.
  intros Hquiet w; rewrite form_tab_run; cbv zeta.
  destruct (snd (generate_record_id t (prefix_of t) w)) as [id|e];
    [|reflexivity].
  destruct (submit_button t i) eqn:Hbutton; [|reflexivity].
  destruct Hquiet as [|Hfile]; [discriminate|].
  destruct (forallb Py.truthy (required_fields t i)) eqn:Hreq.
  - now rewrite (submit_plain t id i _ Hreq Hfile).
  - unfold submit; rewrite Hreq; reflexivity.
Qed.

(** X10: nothing reaches the drive without an attachment.  When every form
    either was not submitted or has no file attached, a run of the script
    leaves the drive as it was, also when the admin view is opened. *)
Theorem script_drive_unchanged (i : Inputs) (w : World) :
  (forall t, submit_button t i = false \/ uploaded_file_of t i = None) ->
  drive_files (fst (script i w)) = drive_files w.
Proof.
  intros Hquiet; revert w; change (keeps drive_files (script i)).
  unfold script.
  repeat (apply keeps_bind; [apply form_tab_drive, Hquiet|intros _]).
  apply admin_tab_keeps; intros e w; reflexivity.
Qed.

(** X11: an id in the Complaints sheet that makes the generator raise
    stops the whole page.  The run ends in that exception right after the
    read of the Complaints sheet: no other sheet is read, nothing is
    appended or uploaded, and the admin view is not reached, whatever was
    entered or pressed. *)
Theorem script_stops_at_first_tab (i : Inputs) (w : World) (e : Exn) :
  snd (generate_record_id Complaints "C" w) = Raise e ->
  snd (script i w) = Raise e /\
  trace (fst (script i w)) =
    trace w ++ [StSubheader (RegisterNew Complaints);
                GetAllValues Complaints] /\
  sheet_values (fst (script i w)) = sheet_values w /\
  drive_files (fst (script i w)) = drive_files w.
Proof.
  intros Hgen.
  assert (Hrun : script i w =
            (after_read Complaints
               (fst (emit (StSubheader (RegisterNew Complaints)) w)),
             Raise e)).
  { unfold script, bind at 1.
    now rewrite (form_tab_raises Complaints i w e Hgen). }
  rewrite Hrun; simpl.
  repeat split; try reflexivity.
  now rewrite <- app_assoc.
Qed.

Lemma form_tab_success_shown (t : RecordType) (i : Inputs) (w : World)
    (record_id : string) :
  submit_button t i = true ->
  (forall x, In x (required_fields t i) -> x <> "") ->
  snd (generate_record_id t (prefix_of t) w) = Ok record_id ->
  snd (form_tab t i w) = Ok tt /\
  In (StSuccess (Registered t record_id)) (trace (fst (form_tab t i w))).
Proof.
  intros Hbutton Hreq Hgen.
  rewrite form_tab_run, Hgen, Hbutton; cbv zeta.
  set (w1 := after_read t (fst (emit (StSubheader (RegisterNew t)) w))).
  apply required_filled in Hreq.
  destruct (uploaded_file_of t i) as [f|] eqn:Hfile.
  - pose proof (submit_attached t record_id i w1 f Hreq Hfile) as Hrun.
    cbv zeta in Hrun; rewrite Hrun; simpl; split; [reflexivity|].
    apply in_or_app; right; simpl; auto.
  - rewrite (submit_plain t record_id i w1 Hreq Hfile); simpl.
    split; [reflexivity|].
    apply in_or_app; right; simpl; auto.
Qed.

(** X12: there is no rolling back.  When a complaint is submitted
    successfully and the generator then raises on the Deviation sheet, the
    run ends in that exception although the complaint's row is already in
    its sheet and its success message was shown. *)
Theorem script_raises_after_append (i : Inputs) (w : World) (e : Exn) :
  submit_button Complaints i = true ->
  (forall x, In x (required_fields Complaints i) -> x <> "") ->
  snd (form_tab Complaints i w) = Ok tt ->
  snd (generate_record_id Deviation "D" (fst (form_tab Complaints i w)))
    = Raise e ->
  snd (script i w) = Raise e /\
  exists row : Row,
    sheet_values (fst (script i w)) Complaints =
      sheet_values w Complaints ++ [row] /\
    In (StSuccess (Registered Complaints (nth 1 row "")))
       (trace (fst (script i w))).
Proof.
  intros Hbutton Hreq Hok Hdev.
  destruct (form_tab_ok_generator _ _ _ Hok) as [id Hgen].
  destruct (form_tab_success _ _ _ _ Hbutton Hreq Hgen) as [url Hafter].
  destruct (form_tab_success_shown _ _ _ _ Hbutton Hreq Hgen) as [_ Hshown].
  destruct (form_tab Complaints i w) as [w1 r] eqn:Htab; simpl in *.
  subst r.
  assert (Hrun : script i w =
            (after_read Deviation
               (fst (emit (StSubheader (RegisterNew Deviation)) w1)),
             Raise e)).
  { unfold script, bind at 1; rewrite Htab; unfold bind at 1.
    now rewrite (form_tab_raises Deviation i w1 e Hdev). }
  rewrite Hrun; simpl.
  split; [reflexivity|].
  eexists; split.
  - rewrite Hafter; apply with_row_same.
  - do 2 (apply in_or_app; left); exact Hshown.
Qed.

Lemma script_stops_at_first_tab_sample :
  let i := admin_attempt "admin123" in
  snd (script i trailing_dash_world) = Raise ValueError /\
  trace (fst (script i trailing_dash_world)) =
    trace trailing_dash_world ++
      [StSubheader (RegisterNew Complaints); GetAllValues Complaints] /\
  sheet_values (fst (script i trailing_dash_world)) =
    sheet_values trailing_dash_world /\
  drive_files (fst (script i trailing_dash_world)) =
    drive_files trailing_dash_world.
Proof.
  exact (script_stops_at_first_tab (admin_attempt "admin123")
           trailing_dash_world ValueError eq_refl).
Defined.

Lemma script_raises_after_append_sample :
  let i := complaint_of "Aspirin" None in
  snd (script i unreadable_deviation_world) = Raise ValueError /\
  exists row : Row,
    sheet_values (fst (script i unreadable_deviation_world)) Complaints =
      sheet_values unreadable_deviation_world Complaints ++ [row] /\
    In (StSuccess (Registered Complaints (nth 1 row "")))
       (trace (fst (script i unreadable_deviation_world))).
Proof.
  intros i.
  refine (script_raises_after_append i unreadable_deviation_world ValueError
            eq_refl (sample_complaint_filled "Aspirin" None _) _ _).
  - discriminate.
  - vm_compute; reflexivity.
  - vm_compute; reflexivity.
Defined.

Lemma script_drive_unchanged_sample :
  drive_files (fst (script (complaint_of "Aspirin" None) sample_world)) =
  drive_files sample_world.
Proof.
  refine (script_drive_unchanged (complaint_of "Aspirin" None) sample_world
            _).
  intros [| |]; [right|left|left]; reflexivity.
Defined.

(** ** The admin view and the drive *)

Lemma tables_shown_app (l1 l2 : list Event) :
  tables_shown (l1 ++ l2) = tables_shown l1 ++ tables_shown l2.
Proof. apply flat_map_app. Qed.

(** X13: with the right password the admin tab reads the three sheets once
    each, in the order Complaints, Deviation, Change Control, and renders
    as tables exactly those that have a row below the header, in that
    order; a sheet with a header only, or empty, gets the no-records note
    instead.  Sheets and drive are left as they were. *)
Theorem admin_tab_lists_sheets (i : Inputs) (w : World) :
  access_admin_panel i = true ->
  admin_password i = "admin123" ->
  snd (admin_tab i w) = Ok tt /\
  trace (fst (admin_tab i w)) =
    trace w ++ [StSubheader AdminPanel; StSuccess AccessGranted;
                GetAllValues Complaints; GetAllValues Deviation;
                GetAllValues ChangeControl]
            ++ listing Complaints w ++ listing Deviation w
            ++ listing ChangeControl w /\
  tables_shown (trace (fst (admin_tab i w))) =
    tables_shown (trace w) ++
    filter has_data_rows
      [sheet_values w Complaints; sheet_values w Deviation;
       sheet_values w ChangeControl] /\
  sheet_values (fst (admin_tab i w)) = sheet_values w /\
  drive_files (fst (admin_tab i w)) = drive_files w.
Proof.
  intros Hbutton Hpw.
  assert (Htrace : snd (admin_tab i w) = Ok tt /\
            trace (fst (admin_tab i w)) =
              trace w ++ [StSubheader AdminPanel; StSuccess AccessGranted;
                          GetAllValues Complaints; GetAllValues Deviation;
                          GetAllValues ChangeControl]
                      ++ listing Complaints w ++ listing Deviation w
                      ++ listing ChangeControl w).
  { unfold admin_tab, access_admin, listing; rewrite Hbutton, Hpw; simpl.
    unfold bind, ret, get_sheet_values, get_all_values, emit, bind; simpl.
    destruct (1 <? List.length (sheet_values w Complaints))%nat;
      destruct (1 <? List.length (sheet_values w Deviation))%nat;
      destruct (1 <? List.length (sheet_values w ChangeControl))%nat;
      simpl; rewrite <- !app_assoc; split; reflexivity. }
  destruct Htrace as [Hok Htrace].
  split; [exact Hok|]; split; [exact Htrace|]; split.
  - rewrite Htrace, tables_shown_app; f_equal.
    unfold listing, has_data_rows; simpl.
    destruct (1 <? List.length (sheet_values w Complaints))%nat;
      destruct (1 <? List.length (sheet_values w Deviation))%nat;
      destruct (1 <? List.length (sheet_values w ChangeControl))%nat;
      reflexivity.
  - split.
    + apply (admin_tab_keeps sheet_values); intros e w'; reflexivity.
    + apply (admin_tab_keeps drive_files); intros e w'; reflexivity.
Qed.

(** X14: no table is rendered unless the admin button is pressed, even
    with the right password typed in and whatever the forms do. *)
Theorem script_no_table_without_button (i : Inputs) (w : World) :
  access_admin_panel i = false ->
  tables_shown (trace (fst (script i w))) = tables_shown (trace w).
Proof.
  intros Hbutton; revert w; change (keeps shown (script i)).
  unfold script.
  repeat (apply keeps_bind; [apply shown_form_tab|intros _]).
  unfold admin_tab; rewrite Hbutton.
  apply keeps_bind; [apply shown_emit; discriminate|intros _].
  apply keeps_ret.
Qed.

(** X16: an attachment is filed under its record.  In a successful
    submission with a file attached, the one file added to the drive is
    named after the id written in the new row, an underscore and the
    original file name, and the last cell of that row is the URL of this
    file. *)
Theorem attachment_named_after_record
    (t : RecordType) (i : Inputs) (w : World) (f : UploadedFile) :
  submit_button t i = true ->
  (forall x, In x (required_fields t i) -> x <> "") ->
  uploaded_file_of t i = Some f ->
  snd (form_tab t i w) = Ok tt ->
  exists (stored : DriveFile) (row : Row),
    drive_files (fst (form_tab t i w)) = drive_files w ++ [stored] /\
    sheet_values (fst (form_tab t i w)) t = sheet_values w t ++ [row] /\
    df_name stored = nth 1 row "" +:+ "_" +:+ uf_name f /\
    df_parents stored = [drive_folder_id w] /\
    attachment_url row = file_url_of stored.
Proof.
  intros Hbutton Hreq Hfile Hok.
  destruct (form_tab_ok_generator _ _ _ Hok) as [id Hgen].
  rewrite form_tab_run, Hgen, Hbutton; cbv zeta.
  set (w1 := after_read t (fst (emit (StSubheader (RegisterNew t)) w))).
  pose proof (submit_attached t id i w1 f (required_filled _ _ Hreq) Hfile)
    as Hrun.
  cbv zeta in Hrun; rewrite Hrun; simpl.
  exists (stored_file w1 id f),
         (new_row t i (today w1) id (file_url_of (stored_file w1 id f))).
  repeat split.
  - apply with_row_same.
  - apply attachment_url_new_row.
Qed.

Lemma admin_tab_lists_sheets_sample :
  let i := admin_attempt "admin123" in
  snd (admin_tab i sample_world) = Ok tt /\
  trace (fst (admin_tab i sample_world)) =
    trace sample_world ++
      [StSubheader AdminPanel; StSuccess AccessGranted;
       GetAllValues Complaints; GetAllValues Deviation;
       GetAllValues ChangeControl]
      ++ listing Complaints sample_world ++ listing Deviation sample_world
      ++ listing ChangeControl sample_world /\
  tables_shown (trace (fst (admin_tab i sample_world))) =
    tables_shown (trace sample_world) ++
    filter has_data_rows
      [sheet_values sample_world Complaints;
       sheet_values sample_world Deviation;
       sheet_values sample_world ChangeControl] /\
  sheet_values (fst (admin_tab i sample_world)) = sheet_values sample_world /\
  drive_files (fst (admin_tab i sample_world)) = drive_files sample_world.
Proof.
  exact (admin_tab_lists_sheets (admin_attempt "admin123") sample_world
           eq_refl eq_refl).
Defined.

Lemma script_no_table_without_button_sample :
  tables_shown
    (trace (fst (script (complaint_of "Aspirin" None) sample_world))) =
  tables_shown (trace sample_world).
Proof.
  exact (script_no_table_without_button (complaint_of "Aspirin" None)
           sample_world eq_refl).
Defined.

Lemma attachment_named_after_record_sample :
  let i := complaint_of "Aspirin" (Some sample_file) in
  exists (stored : DriveFile) (row : Row),
    drive_files (fst (form_tab Complaints i sample_world)) =
      drive_files sample_world ++ [stored] /\
    sheet_values (fst (form_tab Complaints i sample_world)) Complaints =
      sheet_values sample_world Complaints ++ [row] /\
    df_name stored = nth 1 row "" +:+ "_" +:+ uf_name sample_file /\
    df_parents stored = [drive_folder_id sample_world] /\
    attachment_url row = file_url_of stored.
Proof.
  intros i.
  refine (attachment_named_after_record Complaints i sample_world sample_file
            eq_refl (sample_complaint_filled "Aspirin" (Some sample_file) _)
            eq_refl _).
  - discriminate.
  - vm_compute; reflexivity.
Defined.
